(** * OpenAssetIO host API: batch dispatch, error policies and exception mapping

    Shallow embedding of the batch-first [hostApi::Manager] (Manager.cpp,
    ManagerConveniences.cpp), the BatchElementException family
    (exceptions.cpp), the exception-message formatter (exceptionMessages)
    and the [EntityReferencePager].

    A manager plugin is modelled by the sequence of callback invocations
    it performs during one call: a list of [(index, outcome)] pairs, run in
    order against the host-supplied success and error callbacks.  C++
    exceptions are the [inl] side of [Result]; a throw inside a callback
    propagates out of the plugin call and out of the wrapper. *)

From Stdlib Require Import String Ascii ZArith Permutation PrimFloat.
From stdpp Require Import base list strings pretty gmap.

Local Open Scope string_scope.

(** ** Access modes *)

(** Modelled from the spec: [internal::access::Access] and its name table
    [access::kAccessNames] (access.hpp is not among the sources).  The
    spec gives the shared value set read/write/createRelated/unknown; the
    per-operation enums ([ResolveAccess], [PublishingAccess],
    [RelationsAccess], ...) share these values and are [static_cast] to
    [Access] by the conveniences, so they are the same type here. *)
Inductive Access := kRead | kWrite | kCreateRelated | kUnknownAccess.

Definition kAccessNames (a : Access) : string :=
  match a with
  | kRead => "read"
  | kWrite => "write"
  | kCreateRelated => "createRelated"
  | kUnknownAccess => "unknown"
  end.

(** ** Values passed through the API *)

(** [EntityReference]: a string wrapper; [toString] returns the string. *)
Record EntityReference := mkEntityReference { toString : string }.

Definition EntityReferences := list EntityReference.

(** [TraitsDataPtr]: a shared pointer, compared by identity.  A
    default-constructed pointer is [nullptr]. *)
Inductive TraitsDataPtr := nullptr | TraitsDataAt (address : nat).

Definition TraitsDatas := list TraitsDataPtr.

(** [trait::TraitSet]: a set of trait ids. *)
Definition TraitSet := list string.

(** Opaque handles passed through to the plugin unchanged. *)
Definition ContextConstPtr := nat.
Definition HostSessionPtr := nat.
Definition EntityReferencePagerInterfacePtr := nat.

(** ** BatchElementError *)

(** Modelled from the spec: [BatchElementError::ErrorCode]
    (BatchElementError.hpp is not among the sources).  The spec's closed
    enumeration has eight enumerators.  A C++ [enum class] variable can
    still hold any other value of the underlying type (through a
    [static_cast]); [ErrorCodeValue z] is such a value, the case the
    defensive fall-through of [throwFromBatchElementError] is written for. *)
Inductive ErrorCode :=
  | kUnknown
  | kInvalidEntityReference
  | kMalformedEntityReference
  | kEntityAccessError
  | kEntityResolutionError
  | kInvalidTraitsData
  | kInvalidPreflightHint
  | kInvalidTraitSet
  | ErrorCodeValue (z : Z).

(** The values of the closed enum: the declared enumerators. *)
Definition isEnumerator (c : ErrorCode) : bool :=
  match c with ErrorCodeValue _ => false | _ => true end.

Record BatchElementError := mkBatchElementError { code : ErrorCode; message : string }.

(** Modelled from the spec: a value-initialised [BatchElementError], the
    initial content of a [std::variant<BatchElementError, T>] slot after
    [resize]. *)
Definition defaultBatchElementError : BatchElementError :=
  {| code := kUnknown; message := "" |}.

(** ** Exceptions *)

Module errors.

(** The concrete C++ type of a thrown batch exception. *)
Inductive ExceptionType :=
  | TBatchElementException
  | TUnknownBatchElementException
  | TInvalidEntityReferenceBatchElementException
  | TMalformedEntityReferenceBatchElementException
  | TEntityAccessErrorBatchElementException
  | TEntityResolutionErrorBatchElementException
  | TInvalidTraitsDataBatchElementException
  | TInvalidPreflightHintBatchElementException
  | TInvalidTraitSetBatchElementException.

(** A [BatchElementException] object of any of the types above: the
    [what()] message, [index], [error] and the optional data members of
    the derived types (absent on types that do not declare them). *)
Record BatchElementException := mkBatchElementException {
  exceptionType : ExceptionType;
  what : string;
  index : nat;
  error : BatchElementError;
  entityReference : option EntityReference;
  traitsData : option TraitsDataPtr;
  traitSet : option TraitSet;
  access : option Access
}.

Inductive OpenAssetIOException :=
  | InputValidationException (msg : string)
  | BatchElementExc (e : BatchElementException).

(** [BatchElementException(idx, err)]: the message is [err.message]. *)
Definition plainBatchElementException (t : ExceptionType) (idx : nat)
    (err : BatchElementError) : BatchElementException :=
  {| exceptionType := t; what := message err; index := idx; error := err;
     entityReference := None; traitsData := None; traitSet := None; access := None |}.

(** exceptions.cpp, [constructErrorMessage]: ["{msg} [{ref}]"] when a
    reference is known, the bare message otherwise. *)
Definition constructErrorMessage (batchElementErrorMessage : string)
    (maybeEntityReference : option EntityReference) : string :=
  match maybeEntityReference with
  | Some r => batchElementErrorMessage ++ " [" ++ toString r ++ "]"
  | None => batchElementErrorMessage
  end.

(** [BatchElementEntityReferenceException(idx, err, ref)] and the types
    inheriting its constructor (InvalidEntityReference,
    MalformedEntityReference, EntityResolutionError), and
    [EntityAccessErrorBatchElementException(idx, err, ref)]. *)
Definition entityReferenceException (t : ExceptionType) (idx : nat)
    (err : BatchElementError) (causedByEntityReference : option EntityReference)
    : BatchElementException :=
  {| exceptionType := t; what := constructErrorMessage (message err) causedByEntityReference;
     index := idx; error := err; entityReference := causedByEntityReference;
     traitsData := None; traitSet := None; access := None |}.

(** [InvalidTraitsDataBatchElementException(idx, err, ref, traitsData)],
    also inherited by [InvalidPreflightHintBatchElementException]. *)
Definition traitsDataException (t : ExceptionType) (idx : nat)
    (err : BatchElementError) (causedByEntityReference : option EntityReference)
    (causedByTraitsData : option TraitsDataPtr) : BatchElementException :=
  {| exceptionType := t; what := constructErrorMessage (message err) causedByEntityReference;
     index := idx; error := err; entityReference := causedByEntityReference;
     traitsData := causedByTraitsData; traitSet := None; access := None |}.

(** [InvalidTraitSetBatchElementException(idx, err, ref, traitSet)]. *)
Definition traitSetException (idx : nat) (err : BatchElementError)
    (causedByEntityReference : option EntityReference)
    (causedByTraitSet : option TraitSet) : BatchElementException :=
  {| exceptionType := TInvalidTraitSetBatchElementException;
     what := constructErrorMessage (message err) causedByEntityReference;
     index := idx; error := err; entityReference := causedByEntityReference;
     traitsData := None; traitSet := causedByTraitSet; access := None |}.

(** [BatchElementException(msg, idx, err)]: explicit message. *)
Definition batchElementExceptionWithMessage (msg : string) (idx : nat)
    (err : BatchElementError) : BatchElementException :=
  {| exceptionType := TBatchElementException; what := msg; index := idx; error := err;
     entityReference := None; traitsData := None; traitSet := None; access := None |}.

End errors.

Import errors.

(** ** The exception monad *)

Definition Result (X : Type) : Type := (OpenAssetIOException + X)%type.

Global Instance Result_ret : MRet Result := fun _ x => inr x.
Global Instance Result_bind : MBind Result := fun _ _ k m =>
  match m with inl e => inl e | inr x => k x end.

Definition throw {X} (e : OpenAssetIOException) : Result X := inl e.

(** ** Plugin callback invocations *)

(** One callback invocation by the plugin: the success callback with a
    value, or the error callback with a [BatchElementError]. *)
Inductive Outcome (A : Type) := Success (v : A) | Failure (e : BatchElementError).
Arguments Success {A} v.
Arguments Failure {A} e.

Definition Invocation (A : Type) : Type := (nat * Outcome A)%type.

Section Dispatch.
Context {S A : Type}.
(** The host's callbacks, threading the state [S] they capture by
    reference (the result container of a wrapper). *)
Variable successCallback : nat -> A -> S -> Result S.
Variable errorCallback : nat -> BatchElementError -> S -> Result S.

(** The plugin invokes the callbacks in the order of [calls]; an
    exception thrown by a callback propagates out of the plugin call, so
    no later invocation runs. *)
Fixpoint invokeCallbacks (calls : list (Invocation A)) (s : S) : Result S :=
  match calls with
  | [] => inr s
  | (idx, Success v) :: rest => s' ← successCallback idx v s; invokeCallbacks rest s'
  | (idx, Failure e) :: rest => s' ← errorCallback idx e s; invokeCallbacks rest s'
  end.
End Dispatch.

(** ** The manager plugin ([managerApi::ManagerInterface]) *)

(** Each batch method is given by the callback invocations the plugin
    performs for its arguments (inputs, operation arguments, context and
    host session). *)
Record ManagerInterface := {
  mi_isEntityReferenceString : string -> HostSessionPtr -> bool;
  mi_resolve : EntityReferences -> TraitSet -> Access -> ContextConstPtr ->
               HostSessionPtr -> list (Invocation TraitsDataPtr);
  mi_preflight : EntityReferences -> TraitsDatas -> Access -> ContextConstPtr ->
                 HostSessionPtr -> list (Invocation EntityReference);
  mi_register_ : EntityReferences -> TraitsDatas -> Access -> ContextConstPtr ->
                 HostSessionPtr -> list (Invocation EntityReference);
  mi_getWithRelationshipPaged : EntityReferences -> TraitsDataPtr -> TraitSet -> nat ->
      Access -> ContextConstPtr -> HostSessionPtr ->
      list (Invocation EntityReferencePagerInterfacePtr);
  mi_getWithRelationshipsPaged : EntityReference -> TraitsDatas -> TraitSet -> nat ->
      Access -> ContextConstPtr -> HostSessionPtr ->
      list (Invocation EntityReferencePagerInterfacePtr)
}.

(** [hostApi::Manager]: the plugin, the host session and the entity
    reference prefix cached by [initialize]. *)
Record Manager := mkManager {
  managerInterface_ : ManagerInterface;
  hostSession_ : HostSessionPtr;
  entityReferencePrefix_ : option string
}.

(** [hostApi::EntityReferencePager]: the plugin's pager and the session. *)
Record EntityReferencePager := mkEntityReferencePager {
  pagerInterface_ : EntityReferencePagerInterfacePtr;
  pagerHostSession_ : HostSessionPtr
}.

(** [EntityReferencePager::make]. *)
Definition EntityReferencePager_make (pagerInterface : EntityReferencePagerInterfacePtr)
    (hostSession : HostSessionPtr) : EntityReferencePager :=
  mkEntityReferencePager pagerInterface hostSession.

(** [EntityReferencePagerPtr]: a shared pointer to a pager, [None] being
    [nullptr]. *)
Definition EntityReferencePagerPtr := option EntityReferencePager.

(** ** Entity reference validation *)

(** [Manager::isEntityReferenceString]: the cached prefix when there is
    one ([rfind(prefix, 0) != npos], i.e. starts-with), the plugin
    otherwise. *)
Definition isEntityReferenceString (m : Manager) (someString : string) : bool :=
  match entityReferencePrefix_ m with
  | None => mi_isEntityReferenceString (managerInterface_ m) someString (hostSession_ m)
  | Some prefix => String.prefix prefix someString
  end.

Definition kCreateEntityReferenceErrorMessage := "Invalid entity reference: ".

(** [Manager::createEntityReference]. *)
Definition createEntityReference (m : Manager) (entityReferenceString : string)
    : Result EntityReference :=
  if negb (isEntityReferenceString m entityReferenceString) then
    throw (InputValidationException (kCreateEntityReferenceErrorMessage ++ entityReferenceString))
  else mret (mkEntityReference entityReferenceString).

(** [Manager::createEntityReferenceIfValid]. *)
Definition createEntityReferenceIfValid (m : Manager) (entityReferenceString : string)
    : option EntityReference :=
  if negb (isEntityReferenceString m entityReferenceString) then None
  else Some (mkEntityReference entityReferenceString).

(** ** Callback (batch-first) forms, Manager.cpp *)

Section CallbackForms.
Context {S : Type}.
Variable m : Manager.

(** [Manager::resolve] (callback form): straight pass-through. *)
Definition resolve_cb (entityReferences : EntityReferences) (traitSet : TraitSet)
    (resolveAccess : Access) (context : ContextConstPtr)
    (successCallback : nat -> TraitsDataPtr -> S -> Result S)
    (errorCallback : nat -> BatchElementError -> S -> Result S) (s : S) : Result S :=
  invokeCallbacks successCallback errorCallback
    (mi_resolve (managerInterface_ m) entityReferences traitSet resolveAccess context
       (hostSession_ m)) s.

(** The message of the length check in [preflight] and [register_]. *)
Definition lengthMismatchMessage (nRefs nOthers : nat) (what : string) : string :=
  "Parameter lists must be of the same length: " ++ pretty (N.of_nat nRefs) ++
  " entity references vs. " ++ pretty (N.of_nat nOthers) ++ " " ++ what ++ ".".

(** [Manager::preflight] (callback form). *)
Definition preflight_cb (entityReferences : EntityReferences) (traitsHints : TraitsDatas)
    (publishingAccess : Access) (context : ContextConstPtr)
    (successCallback : nat -> EntityReference -> S -> Result S)
    (errorCallback : nat -> BatchElementError -> S -> Result S) (s : S) : Result S :=
  if negb (Nat.eqb (length entityReferences) (length traitsHints)) then
    throw (InputValidationException
             (lengthMismatchMessage (length entityReferences) (length traitsHints)
                "traits hints"))
  else
    invokeCallbacks successCallback errorCallback
      (mi_preflight (managerInterface_ m) entityReferences traitsHints publishingAccess
         context (hostSession_ m)) s.

(** [Manager::register_] (callback form). *)
Definition register_cb (entityReferences : EntityReferences)
    (entityTraitsDatas : TraitsDatas) (publishingAccess : Access)
    (context : ContextConstPtr)
    (successCallback : nat -> EntityReference -> S -> Result S)
    (errorCallback : nat -> BatchElementError -> S -> Result S) (s : S) : Result S :=
  if negb (Nat.eqb (length entityReferences) (length entityTraitsDatas)) then
    throw (InputValidationException
             (lengthMismatchMessage (length entityReferences) (length entityTraitsDatas)
                "traits datas"))
  else
    invokeCallbacks successCallback errorCallback
      (mi_register_ (managerInterface_ m) entityReferences entityTraitsDatas
         publishingAccess context (hostSession_ m)) s.

(** The [convertingPagerSuccessCallback] of the paged queries: wrap the
    plugin's pager in an [EntityReferencePager] and forward. *)
Definition convertingPagerSuccessCallback
    (successCallback : nat -> EntityReferencePager -> S -> Result S)
    (idx : nat) (pagerInterface : EntityReferencePagerInterfacePtr) (s : S) : Result S :=
  successCallback idx (EntityReferencePager_make pagerInterface (hostSession_ m)) s.

Definition kPageSizeMessage := "pageSize must be greater than zero.".

(** [Manager::getWithRelationshipPaged]. *)
Definition getWithRelationshipPaged (entityReferences : EntityReferences)
    (relationshipTraitsData : TraitsDataPtr) (pageSize : nat) (relationsAccess : Access)
    (context : ContextConstPtr)
    (successCallback : nat -> EntityReferencePager -> S -> Result S)
    (errorCallback : nat -> BatchElementError -> S -> Result S)
    (resultTraitSet : TraitSet) (s : S) : Result S :=
  if Nat.eqb pageSize 0 then throw (InputValidationException kPageSizeMessage)
  else
    invokeCallbacks (convertingPagerSuccessCallback successCallback) errorCallback
      (mi_getWithRelationshipPaged (managerInterface_ m) entityReferences
         relationshipTraitsData resultTraitSet pageSize relationsAccess context
         (hostSession_ m)) s.

(** [Manager::getWithRelationshipsPaged]. *)
Definition getWithRelationshipsPaged (entityReference : EntityReference)
    (relationshipTraitsDatas : TraitsDatas) (pageSize : nat) (relationsAccess : Access)
    (context : ContextConstPtr)
    (successCallback : nat -> EntityReferencePager -> S -> Result S)
    (errorCallback : nat -> BatchElementError -> S -> Result S)
    (resultTraitSet : TraitSet) (s : S) : Result S :=
  if Nat.eqb pageSize 0 then throw (InputValidationException kPageSizeMessage)
  else
    invokeCallbacks (convertingPagerSuccessCallback successCallback) errorCallback
      (mi_getWithRelationshipsPaged (managerInterface_ m) entityReference
         relationshipTraitsDatas resultTraitSet pageSize relationsAccess context
         (hostSession_ m)) s.
End CallbackForms.

(** ** Exception messages (exceptionMessages.hpp and its source) *)

(** [errors::errorCodeName].  The switch has no case for
    [kInvalidTraitsData]; such a code reaches the fall-through. *)
Definition errorCodeName (c : ErrorCode) : string :=
  match c with
  | kUnknown => "unknown"
  | kInvalidEntityReference => "invalidEntityReference"
  | kMalformedEntityReference => "malformedEntityReference"
  | kEntityAccessError => "entityAccessError"
  | kEntityResolutionError => "entityResolutionError"
  | kInvalidPreflightHint => "invalidPreflightHint"
  | kInvalidTraitSet => "invalidTraitSet"
  | _ => "Unknown ErrorCode"
  end.

(** [errors::createBatchElementExceptionMessage]: the five parts
    ["{code}:"], [" {message}"] if the message is not empty,
    [" [index={n}]"], [" [access={name}]"] if given,
    [" [entity={ref}]"] if given. *)
Definition createBatchElementExceptionMessage (err : BatchElementError) (index : nat)
    (entityReference : option EntityReference) (access : option Access) : string :=
  (errorCodeName (code err) ++ ":") ++
  (match message err with "" => "" | msg => " " ++ msg end) ++
  (" [index=" ++ pretty (N.of_nat index) ++ "]") ++
  (match access with Some a => " [access=" ++ kAccessNames a ++ "]" | None => "" end) ++
  (match entityReference with Some r => " [entity=" ++ toString r ++ "]" | None => "" end).

(** ** Manager.cpp: typed exceptions and the policy wrappers *)

Module Legacy.

(** [BatchElementExceptionData]: what a wrapper knows about an element. *)
Record BatchElementExceptionData := mkBatchElementExceptionData {
  entityRef : option EntityReference;
  traitsData : option TraitsDataPtr;
  traitSet : option TraitSet
}.

Definition noExceptionData : BatchElementExceptionData :=
  {| entityRef := None; traitsData := None; traitSet := None |}.

(** [throwFromBatchElementError]: the exception thrown for an error at
    [index], by code; an invalid code value falls through to an
    [UnknownBatchElementException] with an annotated message. *)
Definition throwFromBatchElementError {X} (index : nat) (error : BatchElementError)
    (exceptionData : BatchElementExceptionData) : Result X :=
  throw (BatchElementExc
    match code error with
    | kUnknown => plainBatchElementException TUnknownBatchElementException index error
    | kInvalidEntityReference =>
        entityReferenceException TInvalidEntityReferenceBatchElementException index error
          (entityRef exceptionData)
    | kMalformedEntityReference =>
        entityReferenceException TMalformedEntityReferenceBatchElementException index error
          (entityRef exceptionData)
    | kEntityAccessError =>
        entityReferenceException TEntityAccessErrorBatchElementException index error
          (entityRef exceptionData)
    | kEntityResolutionError =>
        entityReferenceException TEntityResolutionErrorBatchElementException index error
          (entityRef exceptionData)
    | kInvalidTraitsData =>
        traitsDataException TInvalidTraitsDataBatchElementException index error
          (entityRef exceptionData) (traitsData exceptionData)
    | kInvalidPreflightHint =>
        traitsDataException TInvalidPreflightHintBatchElementException index error
          (entityRef exceptionData) (traitsData exceptionData)
    | kInvalidTraitSet =>
        traitSetException index error (entityRef exceptionData) (traitSet exceptionData)
    | ErrorCodeValue z =>
        let exceptionMessage :=
          "Invalid BatchElementError. Code: " ++ pretty z ++ " Message: " ++ message error in
        plainBatchElementException TUnknownBatchElementException index
          {| code := code error; message := exceptionMessage |}
    end).

Section Wrappers.
Variable m : Manager.

(** In the wrappers, [v[index]] is unchecked in C++; the plugin contract
    keeps [index] below the input count.  Out of range, [<[i:=x]>]
    leaves the container unchanged and [!!] yields [None]. *)

(** resolve, singular, Exception policy. *)
Definition resolve_single_exc (entityReference : EntityReference) (traitSet : TraitSet)
    (resolveAccess : Access) (context : ContextConstPtr) : Result TraitsDataPtr :=
  resolve_cb m [entityReference] traitSet resolveAccess context
    (fun _ data _ => mret data)
    (fun index error _ =>
       throwFromBatchElementError index error
         {| entityRef := Some entityReference; traitsData := None;
            Legacy.traitSet := Some traitSet |})
    nullptr.

(** resolve, plural, Exception policy. *)
Definition resolve_exc (entityReferences : EntityReferences) (traitSet : TraitSet)
    (resolveAccess : Access) (context : ContextConstPtr) : Result (list TraitsDataPtr) :=
  resolve_cb m entityReferences traitSet resolveAccess context
    (fun index data resolveResult => mret (<[index := data]> resolveResult))
    (fun index error _ =>
       throwFromBatchElementError index error
         {| entityRef := entityReferences !! index; traitsData := None;
            Legacy.traitSet := Some traitSet |})
    (replicate (length entityReferences) nullptr).

(** resolve, plural, Variant policy. *)
Definition resolve_variant (entityReferences : EntityReferences) (traitSet : TraitSet)
    (resolveAccess : Access) (context : ContextConstPtr)
    : Result (list (BatchElementError + TraitsDataPtr)) :=
  resolve_cb m entityReferences traitSet resolveAccess context
    (fun index data resolveResult => mret (<[index := inr data]> resolveResult))
    (fun index error resolveResult => mret (<[index := inl error]> resolveResult))
    (replicate (length entityReferences) (inl defaultBatchElementError)).

(** preflight, plural, Exception policy. *)
Definition preflight_exc (entityReferences : EntityReferences) (traitsHints : TraitsDatas)
    (publishingAccess : Access) (context : ContextConstPtr)
    : Result (list EntityReference) :=
  preflight_cb m entityReferences traitsHints publishingAccess context
    (fun index preflightedRef results => mret (<[index := preflightedRef]> results))
    (fun index error _ =>
       throwFromBatchElementError index error
         {| entityRef := entityReferences !! index; traitsData := traitsHints !! index;
            Legacy.traitSet := None |})
    (replicate (length entityReferences) (mkEntityReference "")).

(** preflight, plural, Variant policy. *)
Definition preflight_variant (entityReferences : EntityReferences)
    (traitsHints : TraitsDatas) (publishingAccess : Access) (context : ContextConstPtr)
    : Result (list (BatchElementError + EntityReference)) :=
  preflight_cb m entityReferences traitsHints publishingAccess context
    (fun index entityReference results => mret (<[index := inr entityReference]> results))
    (fun index error results => mret (<[index := inl error]> results))
    (replicate (length entityReferences) (inl defaultBatchElementError)).

(** register_, plural, Exception policy. *)
Definition register_exc (entityReferences : EntityReferences)
    (entityTraitsDatas : TraitsDatas) (publishingAccess : Access)
    (context : ContextConstPtr) : Result (list EntityReference) :=
  register_cb m entityReferences entityTraitsDatas publishingAccess context
    (fun index registeredRef result => mret (<[index := registeredRef]> result))
    (fun index error _ =>
       throwFromBatchElementError index error
         {| entityRef := entityReferences !! index;
            traitsData := entityTraitsDatas !! index; Legacy.traitSet := None |})
    (replicate (length entityReferences) (mkEntityReference "")).

(** register_, plural, Variant policy. *)
Definition register_variant (entityReferences : EntityReferences)
    (entityTraitsDatas : TraitsDatas) (publishingAccess : Access)
    (context : ContextConstPtr) : Result (list (BatchElementError + EntityReference)) :=
  register_cb m entityReferences entityTraitsDatas publishingAccess context
    (fun index registeredRef result => mret (<[index := inr registeredRef]> result))
    (fun index error result => mret (<[index := inl error]> result))
    (replicate (length entityReferences) (inl defaultBatchElementError)).

(** resolve, singular, Variant policy: the variant starts as a
    value-initialised [BatchElementError]. *)
Definition resolve_single_variant (entityReference : EntityReference) (traitSet : TraitSet)
    (resolveAccess : Access) (context : ContextConstPtr)
    : Result (BatchElementError + TraitsDataPtr) :=
  resolve_cb m [entityReference] traitSet resolveAccess context
    (fun _ data _ => mret (inr data))
    (fun _ error _ => mret (inl error))
    (inl defaultBatchElementError).

(** preflight, singular, Exception policy. *)
Definition preflight_single_exc (entityReference : EntityReference)
    (traitsHint : TraitsDataPtr) (publishingAccess : Access) (context : ContextConstPtr)
    : Result EntityReference :=
  preflight_cb m [entityReference] [traitsHint] publishingAccess context
    (fun _ preflightedRef _ => mret preflightedRef)
    (fun index error _ =>
       throwFromBatchElementError index error
         {| entityRef := Some entityReference; traitsData := Some traitsHint;
            Legacy.traitSet := None |})
    (mkEntityReference "").

(** preflight, singular, Variant policy. *)
Definition preflight_single_variant (entityReference : EntityReference)
    (traitsHint : TraitsDataPtr) (publishingAccess : Access) (context : ContextConstPtr)
    : Result (BatchElementError + EntityReference) :=
  preflight_cb m [entityReference] [traitsHint] publishingAccess context
    (fun _ preflightedRef _ => mret (inr preflightedRef))
    (fun _ error _ => mret (inl error))
    (inl defaultBatchElementError).

(** register_, singular, Exception policy. *)
Definition register_single_exc (entityReference : EntityReference)
    (entityTraitsData : TraitsDataPtr) (publishingAccess : Access) (context : ContextConstPtr)
    : Result EntityReference :=
  register_cb m [entityReference] [entityTraitsData] publishingAccess context
    (fun _ registeredRef _ => mret registeredRef)
    (fun index error _ =>
       throwFromBatchElementError index error
         {| entityRef := Some entityReference; traitsData := Some entityTraitsData;
            Legacy.traitSet := None |})
    (mkEntityReference "").

(** register_, singular, Variant policy. *)
Definition register_single_variant (entityReference : EntityReference)
    (entityTraitsData : TraitsDataPtr) (publishingAccess : Access) (context : ContextConstPtr)
    : Result (BatchElementError + EntityReference) :=
  register_cb m [entityReference] [entityTraitsData] publishingAccess context
    (fun _ registeredRef _ => mret (inr registeredRef))
    (fun _ error _ => mret (inl error))
    (inl defaultBatchElementError).
End Wrappers.

End Legacy.

(** ** ManagerConveniences.cpp: the policy wrappers with formatted messages *)

Module Conveniences.

(** The throw of every Exception-policy error callback in this file:
    [throw errors::BatchElementException(index, error, msg)] with
    [msg = createBatchElementExceptionMessage(error, index, ref, access)]. *)
Definition throwWithMessage {X} (index : nat) (error : BatchElementError)
    (entityReference : option EntityReference) (access : Access) : Result X :=
  throw (BatchElementExc
    (batchElementExceptionWithMessage
       (createBatchElementExceptionMessage error index entityReference (Some access))
       index error)).

Section Wrappers.
Variable m : Manager.

(** resolve, singular, Exception policy. *)
Definition resolve_single_exc (entityReference : EntityReference) (traitSet : TraitSet)
    (resolveAccess : Access) (context : ContextConstPtr) : Result TraitsDataPtr :=
  resolve_cb m [entityReference] traitSet resolveAccess context
    (fun _ data _ => mret data)
    (fun index error _ => throwWithMessage index error (Some entityReference) resolveAccess)
    nullptr.

(** resolve, plural, Exception policy. *)
Definition resolve_exc (entityReferences : EntityReferences) (traitSet : TraitSet)
    (resolveAccess : Access) (context : ContextConstPtr) : Result (list TraitsDataPtr) :=
  resolve_cb m entityReferences traitSet resolveAccess context
    (fun index data resolveResult => mret (<[index := data]> resolveResult))
    (fun index error _ =>
       throwWithMessage index error (entityReferences !! index) resolveAccess)
    (replicate (length entityReferences) nullptr).

(** resolve, plural, Variant policy. *)
Definition resolve_variant (entityReferences : EntityReferences) (traitSet : TraitSet)
    (resolveAccess : Access) (context : ContextConstPtr)
    : Result (list (BatchElementError + TraitsDataPtr)) :=
  resolve_cb m entityReferences traitSet resolveAccess context
    (fun index data resolveResult => mret (<[index := inr data]> resolveResult))
    (fun index error resolveResult => mret (<[index := inl error]> resolveResult))
    (replicate (length entityReferences) (inl defaultBatchElementError)).

(** preflight, plural, Exception policy. *)
Definition preflight_exc (entityReferences : EntityReferences) (traitsHints : TraitsDatas)
    (publishingAccess : Access) (context : ContextConstPtr)
    : Result (list EntityReference) :=
  preflight_cb m entityReferences traitsHints publishingAccess context
    (fun index preflightedRef results => mret (<[index := preflightedRef]> results))
    (fun index error _ =>
       throwWithMessage index error (entityReferences !! index) publishingAccess)
    (replicate (length entityReferences) (mkEntityReference "")).

(** preflight, plural, Variant policy. *)
Definition preflight_variant (entityReferences : EntityReferences)
    (traitsHints : TraitsDatas) (publishingAccess : Access) (context : ContextConstPtr)
    : Result (list (BatchElementError + EntityReference)) :=
  preflight_cb m entityReferences traitsHints publishingAccess context
    (fun index entityReference results => mret (<[index := inr entityReference]> results))
    (fun index error results => mret (<[index := inl error]> results))
    (replicate (length entityReferences) (inl defaultBatchElementError)).

(** register_, plural, Exception policy. *)
Definition register_exc (entityReferences : EntityReferences)
    (entityTraitsDatas : TraitsDatas) (publishingAccess : Access)
    (context : ContextConstPtr) : Result (list EntityReference) :=
  register_cb m entityReferences entityTraitsDatas publishingAccess context
    (fun index registeredRef result => mret (<[index := registeredRef]> result))
    (fun index error _ =>
       throwWithMessage index error (entityReferences !! index) publishingAccess)
    (replicate (length entityReferences) (mkEntityReference "")).

(** register_, plural, Variant policy. *)
Definition register_variant (entityReferences : EntityReferences)
    (entityTraitsDatas : TraitsDatas) (publishingAccess : Access)
    (context : ContextConstPtr) : Result (list (BatchElementError + EntityReference)) :=
  register_cb m entityReferences entityTraitsDatas publishingAccess context
    (fun index registeredRef result => mret (<[index := inr registeredRef]> result))
    (fun index error result => mret (<[index := inl error]> result))
    (replicate (length entityReferences) (inl defaultBatchElementError)).

(** resolve, singular, Variant policy. *)
Definition resolve_single_variant (entityReference : EntityReference) (traitSet : TraitSet)
    (resolveAccess : Access) (context : ContextConstPtr)
    : Result (BatchElementError + TraitsDataPtr) :=
  resolve_cb m [entityReference] traitSet resolveAccess context
    (fun _ data _ => mret (inr data))
    (fun _ error _ => mret (inl error))
    (inl defaultBatchElementError).

(** preflight, singular, Exception policy. *)
Definition preflight_single_exc (entityReference : EntityReference)
    (traitsHint : TraitsDataPtr) (publishingAccess : Access) (context : ContextConstPtr)
    : Result EntityReference :=
  preflight_cb m [entityReference] [traitsHint] publishingAccess context
    (fun _ preflightedRef _ => mret preflightedRef)
    (fun index error _ =>
       throwWithMessage index error (Some entityReference) publishingAccess)
    (mkEntityReference "").

(** preflight, singular, Variant policy. *)
Definition preflight_single_variant (entityReference : EntityReference)
    (traitsHint : TraitsDataPtr) (publishingAccess : Access) (context : ContextConstPtr)
    : Result (BatchElementError + EntityReference) :=
  preflight_cb m [entityReference] [traitsHint] publishingAccess context
    (fun _ preflightedRef _ => mret (inr preflightedRef))
    (fun _ error _ => mret (inl error))
    (inl defaultBatchElementError).

(** register_, singular, Exception policy. *)
Definition register_single_exc (entityReference : EntityReference)
    (entityTraitsData : TraitsDataPtr) (publishingAccess : Access) (context : ContextConstPtr)
    : Result EntityReference :=
  register_cb m [entityReference] [entityTraitsData] publishingAccess context
    (fun _ registeredRef _ => mret registeredRef)
    (fun index error _ =>
       throwWithMessage index error (Some entityReference) publishingAccess)
    (mkEntityReference "").

(** register_, singular, Variant policy. *)
Definition register_single_variant (entityReference : EntityReference)
    (entityTraitsData : TraitsDataPtr) (publishingAccess : Access) (context : ContextConstPtr)
    : Result (BatchElementError + EntityReference) :=
  register_cb m [entityReference] [entityTraitsData] publishingAccess context
    (fun _ registeredRef _ => mret (inr registeredRef))
    (fun _ error _ => mret (inl error))
    (inl defaultBatchElementError).

(** The paged relationship queries.  These wrappers call a callback form
    [getWithRelationship] / [getWithRelationships] taking a [pageSize]
    and a pager success callback: the forms Manager.cpp names
    [getWithRelationshipPaged] / [getWithRelationshipsPaged], with the
    same parameter list; they are modelled as calls to those. *)

(** getWithRelationship, singular, Exception policy. *)
Definition getWithRelationship_single_exc (entityReference : EntityReference)
    (relationshipTraitsData : TraitsDataPtr) (pageSize : nat) (relationsAccess : Access)
    (context : ContextConstPtr) (resultTraitSet : TraitSet)
    : Result EntityReferencePagerPtr :=
  getWithRelationshipPaged m [entityReference] relationshipTraitsData pageSize
    relationsAccess context
    (fun _ pager _ => mret (Some pager))
    (fun index error _ => throwWithMessage index error (Some entityReference) relationsAccess)
    resultTraitSet None.

(** getWithRelationship, singular, Variant policy. *)
Definition getWithRelationship_single_variant (entityReference : EntityReference)
    (relationshipTraitsData : TraitsDataPtr) (pageSize : nat) (relationsAccess : Access)
    (context : ContextConstPtr) (resultTraitSet : TraitSet)
    : Result (BatchElementError + EntityReferencePagerPtr) :=
  getWithRelationshipPaged m [entityReference] relationshipTraitsData pageSize
    relationsAccess context
    (fun _ pager _ => mret (inr (Some pager)))
    (fun _ error _ => mret (inl error))
    resultTraitSet (inl defaultBatchElementError).

(** getWithRelationship, plural, Exception policy. *)
Definition getWithRelationship_exc (entityReferences : EntityReferences)
    (relationshipTraitsData : TraitsDataPtr) (pageSize : nat) (relationsAccess : Access)
    (context : ContextConstPtr) (resultTraitSet : TraitSet)
    : Result (list EntityReferencePagerPtr) :=
  getWithRelationshipPaged m entityReferences relationshipTraitsData pageSize
    relationsAccess context
    (fun index pager result => mret (<[index := Some pager]> result))
    (fun index error _ =>
       throwWithMessage index error (entityReferences !! index) relationsAccess)
    resultTraitSet (replicate (length entityReferences) None).

(** getWithRelationship, plural, Variant policy: the slots are resized
    with [nullptr], so they start as a null pager, not as an error. *)
Definition getWithRelationship_variant (entityReferences : EntityReferences)
    (relationshipTraitsData : TraitsDataPtr) (pageSize : nat) (relationsAccess : Access)
    (context : ContextConstPtr) (resultTraitSet : TraitSet)
    : Result (list (BatchElementError + EntityReferencePagerPtr)) :=
  getWithRelationshipPaged m entityReferences relationshipTraitsData pageSize
    relationsAccess context
    (fun index pager result => mret (<[index := inr (Some pager)]> result))
    (fun index error result => mret (<[index := inl error]> result))
    resultTraitSet (replicate (length entityReferences) (inr None)).

(** getWithRelationships, singular, Exception policy. *)
Definition getWithRelationships_single_exc (entityReference : EntityReference)
    (relationshipTraitsData : TraitsDataPtr) (pageSize : nat) (relationsAccess : Access)
    (context : ContextConstPtr) (resultTraitSet : TraitSet)
    : Result EntityReferencePagerPtr :=
  getWithRelationshipsPaged m entityReference [relationshipTraitsData] pageSize
    relationsAccess context
    (fun _ pager _ => mret (Some pager))
    (fun index error _ => throwWithMessage index error (Some entityReference) relationsAccess)
    resultTraitSet None.

(** getWithRelationships, singular, Variant policy. *)
Definition getWithRelationships_single_variant (entityReference : EntityReference)
    (relationshipTraitsData : TraitsDataPtr) (pageSize : nat) (relationsAccess : Access)
    (context : ContextConstPtr) (resultTraitSet : TraitSet)
    : Result (BatchElementError + EntityReferencePagerPtr) :=
  getWithRelationshipsPaged m entityReference [relationshipTraitsData] pageSize
    relationsAccess context
    (fun _ pager _ => mret (inr (Some pager)))
    (fun _ error _ => mret (inl error))
    resultTraitSet (inl defaultBatchElementError).

(** getWithRelationships, plural, Exception policy: one slot per
    relationship traits data. *)
Definition getWithRelationships_exc (entityReference : EntityReference)
    (relationshipTraitsDatas : TraitsDatas) (pageSize : nat) (relationsAccess : Access)
    (context : ContextConstPtr) (resultTraitSet : TraitSet)
    : Result (list EntityReferencePagerPtr) :=
  getWithRelationshipsPaged m entityReference relationshipTraitsDatas pageSize
    relationsAccess context
    (fun index pager result => mret (<[index := Some pager]> result))
    (fun index error _ => throwWithMessage index error (Some entityReference) relationsAccess)
    resultTraitSet (replicate (length relationshipTraitsDatas) None).

(** getWithRelationships, plural, Variant policy. *)
Definition getWithRelationships_variant (entityReference : EntityReference)
    (relationshipTraitsDatas : TraitsDatas) (pageSize : nat) (relationsAccess : Access)
    (context : ContextConstPtr) (resultTraitSet : TraitSet)
    : Result (list (BatchElementError + EntityReferencePagerPtr)) :=
  getWithRelationshipsPaged m entityReference relationshipTraitsDatas pageSize
    relationsAccess context
    (fun index pager result => mret (<[index := inr (Some pager)]> result))
    (fun index error result => mret (<[index := inl error]> result))
    resultTraitSet (replicate (length relationshipTraitsDatas) (inl defaultBatchElementError)).
End Wrappers.

End Conveniences.

(** ** EntityReferencePager *)

(** Modelled from the spec: the backend of a pager
    ([managerApi::EntityReferencePagerInterface]): its three methods take
    the host session and may change the backend's state [B]. *)
Record PagerBackend (B : Type) := {
  pb_hasNext : EntityReferencePagerInterfacePtr -> HostSessionPtr -> B -> bool * B;
  pb_get : EntityReferencePagerInterfacePtr -> HostSessionPtr -> B -> EntityReferences * B;
  pb_next : EntityReferencePagerInterfacePtr -> HostSessionPtr -> B -> B
}.
Arguments pb_hasNext {B} _.
Arguments pb_get {B} _.
Arguments pb_next {B} _.

(** A call received by the backend, with the session it was given. *)
Inductive PagerCall :=
  | CallHasNext (pager : EntityReferencePagerInterfacePtr) (session : HostSessionPtr)
  | CallGet (pager : EntityReferencePagerInterfacePtr) (session : HostSessionPtr)
  | CallNext (pager : EntityReferencePagerInterfacePtr) (session : HostSessionPtr).

(** The world seen by a pager: the backend's state and the calls it has
    received so far, oldest first. *)
Record PagerWorld (B : Type) := mkPagerWorld { backendState : B; backendCalls : list PagerCall }.
Arguments mkPagerWorld {B} _ _.
Arguments backendState {B} _.
Arguments backendCalls {B} _.

Section Pager.
Context {B : Type}.
Variable backend : PagerBackend B.

(** Modelled from the spec: [EntityReferencePager::hasNext]
    (EntityReferencePager.cpp is not among the sources; the spec calls
    the pager a zero-logic forwarding wrapper with no buffering,
    prefetching or caching). *)
Definition pager_hasNext (p : EntityReferencePager) (w : PagerWorld B)
    : bool * PagerWorld B :=
  let '(r, b') := pb_hasNext backend (pagerInterface_ p) (pagerHostSession_ p)
                    (backendState w) in
  (r, mkPagerWorld b' (backendCalls w ++ [CallHasNext (pagerInterface_ p)
                                              (pagerHostSession_ p)])).

(** Modelled from the spec: [EntityReferencePager::get]. *)
Definition pager_get (p : EntityReferencePager) (w : PagerWorld B)
    : EntityReferences * PagerWorld B :=
  let '(r, b') := pb_get backend (pagerInterface_ p) (pagerHostSession_ p)
                    (backendState w) in
  (r, mkPagerWorld b' (backendCalls w ++ [CallGet (pagerInterface_ p)
                                              (pagerHostSession_ p)])).

(** Modelled from the spec: [EntityReferencePager::next]. *)
Definition pager_next (p : EntityReferencePager) (w : PagerWorld B) : PagerWorld B :=
  mkPagerWorld (pb_next backend (pagerInterface_ p) (pagerHostSession_ p) (backendState w))
    (backendCalls w ++ [CallNext (pagerInterface_ p) (pagerHostSession_ p)]).
End Pager.

(** ** Manager initialization: the entity reference prefix *)

(** [InfoDictionaryValue]: the alternatives of an info dictionary value
    (bool, 64-bit integer, double, string). *)
Inductive InfoDictionaryValue :=
  | InfoBool (b : bool)
  | InfoInt (i : Z)
  | InfoFloat (f : float)
  | InfoStr (s : string).

(** [InfoDictionary]: an unordered map from string keys. *)
Definition InfoDictionary := gmap string InfoDictionaryValue.

(** A call made on the host session's logger. *)
Inductive LogCall := LogDebugApi (msg : string) | LogWarning (msg : string).

Section Initialize.
(** [constants::kInfoKey_EntityReferencesMatchPrefix] (its value is not
    among the sources). *)
Variable kInfoKey_EntityReferencesMatchPrefix : string.

(** [entityReferencePrefixFromInfo]: the prefix if the key holds a
    string; a warning and no prefix if it holds another type. *)
Definition entityReferencePrefixFromInfo (info : InfoDictionary)
    : option string * list LogCall :=
  match info !! kInfoKey_EntityReferencesMatchPrefix with
  | Some (InfoStr prefix) =>
      (Some prefix,
       [LogDebugApi ("Entity reference prefix '" ++ prefix ++
          "' provided by manager's info() dict. Subsequent calls to isEntityReferenceString" ++
          " will use this prefix rather than call the manager's implementation.")])
  | Some _ =>
      (None, [LogWarning "Entity reference prefix given but is an invalid type: should be a string."])
  | None => (None, [])
  end.

(** [Manager::initialize]: [info] is what the plugin's [info()] returns
    once its own [initialize(managerSettings, hostSession_)] has run; the
    cached prefix is replaced by the one read from it. *)
Definition initialize (m : Manager) (info : InfoDictionary) : Manager * list LogCall :=
  let '(prefix, logs) := entityReferencePrefixFromInfo info in
  (mkManager (managerInterface_ m) (hostSession_ m) prefix, logs).
End Initialize.

(** ** Contexts *)

Module Ctx.

(** [managerApi::ManagerStateBasePtr]: a plugin-owned state object,
    [None] being [nullptr]. *)
Definition ManagerStateBasePtr := option nat.

(** [Context]: the members [Manager.cpp] uses.  The [Context] header
    among the sources is an older one, with [access] and [retention]
    members and [make(access, retention, locale, managerState)]; the call
    [Context::make(TraitsData::make(parentContext->locale))] of
    [Manager.cpp] does not fit it, so the model follows [Manager.cpp]:
    [make(locale = nullptr, managerState = nullptr)]. *)
Record Context := mkContext {
  locale : TraitsDataPtr;
  managerState : ManagerStateBasePtr
}.

(** [Context::make] (the constructor's body is not among the sources; it
    stores its arguments). *)
Definition make (locale : TraitsDataPtr) (managerState : ManagerStateBasePtr) : Context :=
  mkContext locale managerState.

(** [Context::make()] with its default arguments. *)
Definition make_default : Context := make nullptr None.

End Ctx.

(** The plugin's state methods, each taking the host session and acting
    on the plugin's own state [PS]. *)
Record StatePlugin (PS : Type) := {
  sp_createState : HostSessionPtr -> PS -> Ctx.ManagerStateBasePtr * PS;
  sp_createChildState : nat -> HostSessionPtr -> PS -> Ctx.ManagerStateBasePtr * PS;
  sp_persistenceTokenForState : nat -> HostSessionPtr -> PS -> string * PS;
  sp_stateFromPersistenceToken : string -> HostSessionPtr -> PS -> Ctx.ManagerStateBasePtr * PS
}.
Arguments sp_createState {PS} _.
Arguments sp_createChildState {PS} _.
Arguments sp_persistenceTokenForState {PS} _.
Arguments sp_stateFromPersistenceToken {PS} _.

(** A state method call received by the plugin. *)
Inductive StateCall :=
  | CallCreateState (session : HostSessionPtr)
  | CallCreateChildState (state : nat) (session : HostSessionPtr)
  | CallPersistenceTokenForState (state : nat) (session : HostSessionPtr)
  | CallStateFromPersistenceToken (token : string) (session : HostSessionPtr).

(** The host's heap of [TraitsData] objects ([TraitsDataAt a] points at
    entry [a]), the plugin's state and the state calls it has received. *)
Record HostWorld (TD PS : Type) := mkHostWorld {
  traitsDatas : list TD;
  pluginState : PS;
  stateCalls : list StateCall
}.
Arguments mkHostWorld {TD PS} _ _ _.
Arguments traitsDatas {TD PS} _.
Arguments pluginState {TD PS} _.
Arguments stateCalls {TD PS} _.

Section Contexts.
Context {TD PS : Type}.
(** The content of [TraitsData::make()]. *)
Variable emptyTraitsData : TD.
Variable plugin : StatePlugin PS.

(** [TraitsData::make]: a new object at a fresh address. *)
Definition allocTraitsData (td : TD) (w : HostWorld TD PS) : TraitsDataPtr * HostWorld TD PS :=
  (TraitsDataAt (length (traitsDatas w)),
   mkHostWorld (traitsDatas w ++ [td]) (pluginState w) (stateCalls w)).

(** A call of a plugin state method. *)
Definition callPlugin {R} (f : PS -> R * PS) (c : StateCall) (w : HostWorld TD PS)
    : R * HostWorld TD PS :=
  let '(r, ps') := f (pluginState w) in
  (r, mkHostWorld (traitsDatas w) ps' (stateCalls w ++ [c])).

(** [Manager::createContext]. *)
Definition createContext (m : Manager) (w : HostWorld TD PS) : Ctx.Context * HostWorld TD PS :=
  let context := Ctx.make_default in
  let '(state, w1) := callPlugin (sp_createState plugin (hostSession_ m))
                        (CallCreateState (hostSession_ m)) w in
  let '(loc, w2) := allocTraitsData emptyTraitsData w1 in
  (Ctx.mkContext loc state, w2).

(** [Manager::createChildContext]: a new context on a copy of the
    parent's locale ([TraitsData::make(parentContext->locale)], the copy
    constructor), with a child state when the parent has a state.  The
    sources define no result for a null or dangling parent locale
    ([None]). *)
Definition createChildContext (m : Manager) (parentContext : Ctx.Context)
    (w : HostWorld TD PS) : option (Ctx.Context * HostWorld TD PS) :=
  match Ctx.locale parentContext with
  | nullptr => None
  | TraitsDataAt a =>
      match traitsDatas w !! a with
      | None => None
      | Some parentLocale =>
          let '(loc, w1) := allocTraitsData parentLocale w in
          let context := Ctx.make loc None in
          match Ctx.managerState parentContext with
          | Some parentState =>
              let '(state, w2) :=
                callPlugin (sp_createChildState plugin parentState (hostSession_ m))
                  (CallCreateChildState parentState (hostSession_ m)) w1 in
              Some (Ctx.mkContext (Ctx.locale context) state, w2)
          | None => Some (context, w1)
          end
      end
  end.

(** [Manager::persistenceTokenForContext]. *)
Definition persistenceTokenForContext (m : Manager) (context : Ctx.Context)
    (w : HostWorld TD PS) : string * HostWorld TD PS :=
  match Ctx.managerState context with
  | Some state =>
      callPlugin (sp_persistenceTokenForState plugin state (hostSession_ m))
        (CallPersistenceTokenForState state (hostSession_ m)) w
  | None => ("", w)
  end.

(** [Manager::contextFromPersistenceToken]. *)
Definition contextFromPersistenceToken (m : Manager) (token : string)
    (w : HostWorld TD PS) : Ctx.Context * HostWorld TD PS :=
  let context := Ctx.make_default in
  if negb (String.eqb token "") then
    let '(state, w1) := callPlugin (sp_stateFromPersistenceToken plugin token (hostSession_ m))
                          (CallStateFromPersistenceToken token (hostSession_ m)) w in
    (Ctx.mkContext (Ctx.locale context) state, w1)
  else (context, w).

(** A write through a [TraitsDataPtr] (for instance a host setting a
    trait property on a context's locale). *)
Definition updateTraitsData (p : TraitsDataPtr) (f : TD -> TD) (w : HostWorld TD PS)
    : HostWorld TD PS :=
  match p with
  | nullptr => w
  | TraitsDataAt a => mkHostWorld (alter f a (traitsDatas w)) (pluginState w) (stateCalls w)
  end.
End Contexts.

(** ** Predicates on the plugin's invocations *)

Definition isSuccess {A} (o : Outcome A) : bool :=
  match o with Success _ => true | Failure _ => false end.

(** The slot a Variant-policy wrapper stores for an invocation. *)
Definition variantSlot {A} (o : Outcome A) : BatchElementError + A :=
  match o with Success v => inr v | Failure e => inl e end.

(** The result container after the invocations [calls] each stored
    [h outcome] at their index, in invocation order. *)
Fixpoint fillSlots {A Slot} (h : Outcome A -> Slot) (calls : list (Invocation A))
    (r : list Slot) : list Slot :=
  match calls with
  | [] => r
  | (i, o) :: rest => fillSlots h rest (<[i := h o]> r)
  end.

(** The outcome of the last invocation for index [i], if any. *)
Fixpoint lastOutcome {A} (i : nat) (calls : list (Invocation A)) : option (Outcome A) :=
  match calls with
  | [] => None
  | (j, o) :: rest =>
      match lastOutcome i rest with
      | Some o' => Some o'
      | None => if Nat.eqb i j then Some o else None
      end
  end.

(** Every invocation is for an index below [n] ([v[index]] is unchecked
    in the wrappers, so a larger index has no defined result). *)
Definition InRange {A} (n : nat) (calls : list (Invocation A)) : Prop :=
  Forall (fun c => fst c < n) calls.

(** The container a wrapper returns when, for every index below [n],
    it holds [h o] for the outcome [o] of the last invocation for that
    index, and [d] where no invocation arrived. *)
Definition slotsByLastCallback {A Slot} (h : Outcome A -> Slot) (d : Slot) (n : nat)
    (calls : list (Invocation A)) : list Slot :=
  (fun i => match lastOutcome i calls with Some o => h o | None => d end) <$> seq 0 n.

(** ** One invocation per index *)

(** The plugin contract: exactly one callback per index of [0, n), in any
    order. *)
Definition OnePerIndex {A} (n : nat) (calls : list (Invocation A)) : Prop :=
  Permutation (map fst calls) (seq 0 n).

Definition AllSucceed {A} (calls : list (Invocation A)) : Prop :=
  Forall (fun c => isSuccess (snd c) = true) calls.

(** The Exception-policy result is [vs], the value delivered for each
    index in index order, and the Variant-policy result holds the same
    values as successes. *)
Definition OrderRestored {A} (n : nat) (calls : list (Invocation A))
    (exc : Result (list A)) (var : Result (list (BatchElementError + A))) : Prop :=
  exists vs, exc = inr vs /\ var = inr (inr <$> vs) /\ length vs = n /\
    forall i v, In (i, Success v) calls -> vs !! i = Some v.

(** The Variant-policy result has [n] slots and the slot of each index
    holds what that index's invocation delivered. *)
Definition VariantComplete {A} (n : nat) (calls : list (Invocation A))
    (var : Result (list (BatchElementError + A))) : Prop :=
  exists slots, var = inr slots /\ length slots = n /\
    forall i o, In (i, o) calls -> slots !! i = Some (variantSlot o).

(** ** Definitions following the spec's words

    These two definitions are not translations of the source: they write
    down what the spec says, so that the source's behaviour can be
    compared with it. *)

(** The spec's pairing of error codes with exception types: each of the
    declared codes with the exception type of the same name; no type for a
    value outside the enumeration. *)
Definition specExceptionTypeFor (c : ErrorCode) : option ExceptionType :=
  match c with
  | kUnknown => Some TUnknownBatchElementException
  | kInvalidEntityReference => Some TInvalidEntityReferenceBatchElementException
  | kMalformedEntityReference => Some TMalformedEntityReferenceBatchElementException
  | kEntityAccessError => Some TEntityAccessErrorBatchElementException
  | kEntityResolutionError => Some TEntityResolutionErrorBatchElementException
  | kInvalidTraitsData => Some TInvalidTraitsDataBatchElementException
  | kInvalidPreflightHint => Some TInvalidPreflightHintBatchElementException
  | kInvalidTraitSet => Some TInvalidTraitSetBatchElementException
  | ErrorCodeValue _ => None
  end.

(** The spec's message format
    ["<errorCodeName>: <message> [index=<n>] [access=<name>] [entity=<ref>]"],
    the access and entity segments left out when absent. *)
Definition specBatchElementExceptionMessage (err : BatchElementError) (index : nat)
    (entityReference : option EntityReference) (access : option Access) : string :=
  errorCodeName (code err) ++ ": " ++ message err ++
  " [index=" ++ pretty (N.of_nat index) ++ "]" ++
  (match access with Some a => " [access=" ++ kAccessNames a ++ "]" | None => "" end) ++
  (match entityReference with Some r => " [entity=" ++ toString r ++ "]" | None => "" end).

(** ** A scripted plugin

    A plugin whose batch methods perform fixed callback invocations, as
    the tests' mock manager interface does through its side effects, and
    which accepts the strings that start with [prefix]. *)
Definition mockManagerInterface (prefix : string)
    (resolveCalls : list (Invocation TraitsDataPtr))
    (publishCalls : list (Invocation EntityReference))
    (pagedCalls : list (Invocation EntityReferencePagerInterfacePtr)) : ManagerInterface :=
  {| mi_isEntityReferenceString := fun s _ => String.prefix prefix s;
     mi_resolve := fun _ _ _ _ _ => resolveCalls;
     mi_preflight := fun _ _ _ _ _ => publishCalls;
     mi_register_ := fun _ _ _ _ _ => publishCalls;
     mi_getWithRelationshipPaged := fun _ _ _ _ _ _ _ => pagedCalls;
     mi_getWithRelationshipsPaged := fun _ _ _ _ _ _ _ => pagedCalls |}.

(** A manager over the scripted plugin, before [initialize] has cached a
    prefix. *)
Definition mockManager (resolveCalls : list (Invocation TraitsDataPtr))
    (publishCalls : list (Invocation EntityReference))
    (pagedCalls : list (Invocation EntityReferencePagerInterfacePtr)) : Manager :=
  mkManager (mockManagerInterface "bal:///" resolveCalls publishCalls pagedCalls) 7 None.

(** A scripted stateful plugin whose own state is a counter: new states
    are numbered by it, a child state is its parent's plus 100, state 0
    has the empty token and any other state the token "tok", and a token
    restores the state numbered by its length. *)
Definition mockStatePlugin : StatePlugin nat :=
  {| sp_createState := fun _ ps => (Some ps, S ps);
     sp_createChildState := fun st _ ps => (Some (st + 100), S ps);
     sp_persistenceTokenForState := fun st _ ps => (if Nat.eqb st 0 then "" else "tok", ps);
     sp_stateFromPersistenceToken := fun t _ ps => (Some (String.length t), S ps) |}.

(** The result is a batch exception raised for index [i]. *)
Definition throwsAtIndex {X} (r : Result X) (i : nat) : Prop :=
  exists ex, r = inl (BatchElementExc ex) /\ index ex = i.

(** ** Generic facts about the dispatch loop *)

Section DispatchFacts.
Context {S A : Type}.
Implicit Types (calls : list (Invocation A)) (succ : nat -> A -> S -> Result S)
  (err : nat -> BatchElementError -> S -> Result S).

Lemma invokeCallbacks_app succ err calls1 calls2 (s : S) :
  invokeCallbacks succ err (calls1 ++ calls2) s =
  (s' ← invokeCallbacks succ err calls1 s; invokeCallbacks succ err calls2 s').
Proof.
  revert s; induction calls1 as [|[i [v|e]] rest IH]; intros s; simpl; [done| |].
  - destruct (succ i v s); simpl; [done|apply IH].
  - destruct (err i e s); simpl; [done|apply IH].
Qed.

(** Success callbacks that never throw run through a prefix of
    successes. *)
Lemma invokeCallbacks_successes succ err calls (s : S) :
  (forall i v r, exists r', succ i v r = inr r') ->
  Forall (fun c => isSuccess (snd c) = true) calls ->
  exists s', invokeCallbacks succ err calls s = inr s'.
Proof.
  intros Hsucc Hall; revert s; induction Hall as [|[i [v|e]] rest Hc _ IH];
    intros s; simpl in *; [eauto|..|discriminate].
  destruct (Hsucc i v s) as [r' ->]; simpl; apply IH.
Qed.

(** Fail-fast: the first failing invocation decides the result, whatever
    the plugin would do afterwards. *)
Lemma invokeCallbacks_first_failure succ err pre i e post (s : S) x :
  (forall j v r, exists r', succ j v r = inr r') ->
  (forall r, err i e r = inl x) ->
  Forall (fun c => isSuccess (snd c) = true) pre ->
  invokeCallbacks succ err (pre ++ (i, Failure e) :: post) s = inl x.
Proof.
  intros Hsucc Herr Hpre.
  rewrite invokeCallbacks_app.
  destruct (invokeCallbacks_successes succ err pre s Hsucc Hpre) as [s' ->]; simpl.
  by rewrite Herr.
Qed.

(** Callbacks that store [h outcome] at the index produce [fillSlots]. *)
Lemma invokeCallbacks_fill {Slot} (h : Outcome A -> Slot)
    (succ : nat -> A -> list Slot -> Result (list Slot))
    (err : nat -> BatchElementError -> list Slot -> Result (list Slot)) calls
    (r : list Slot) :
  (forall i v r', In (i, Success v) calls -> succ i v r' = inr (<[i := h (Success v)]> r')) ->
  (forall i e r', In (i, Failure e) calls -> err i e r' = inr (<[i := h (Failure e)]> r')) ->
  invokeCallbacks succ err calls r = inr (fillSlots h calls r).
Proof.
  revert r; induction calls as [|[i [v|e]] rest IH]; intros r Hs He; simpl; [done|..].
  - rewrite Hs by (left; done); simpl.
    apply IH; intros; [apply Hs|apply He]; right; done.
  - rewrite He by (left; done); simpl.
    apply IH; intros; [apply Hs|apply He]; right; done.
Qed.
End DispatchFacts.

Section FillFacts.
Context {A Slot : Type} (h : Outcome A -> Slot).
Implicit Types (calls : list (Invocation A)) (r : list Slot).

Lemma length_fillSlots calls r : length (fillSlots h calls r) = length r.
Proof.
  revert r; induction calls as [|[i o] rest IH]; intros r; simpl; [done|].
  by rewrite IH, length_insert.
Qed.

Lemma fillSlots_lookup_other calls r j :
  j ∉ map fst calls -> fillSlots h calls r !! j = r !! j.
Proof.
  revert r; induction calls as [|[i o] rest IH]; intros r Hj; simpl in *; [done|].
  apply not_elem_of_cons in Hj as [Hne Hj].
  rewrite IH by done.
  apply list_lookup_insert_ne. congruence.
Qed.

Lemma fillSlots_lookup calls r i o :
  NoDup (map fst calls) -> In (i, o) calls -> i < length r ->
  fillSlots h calls r !! i = Some (h o).
Proof.
  revert r; induction calls as [|[j o'] rest IH]; intros r Hnd Hin Hlt; simpl in *;
    [done|].
  inversion Hnd as [|? ? Hnotin Hnd']; subst.
  destruct Hin as [Heq|Hin].
  - inversion Heq; subst.
    rewrite fillSlots_lookup_other by exact Hnotin.
    by apply list_lookup_insert_eq.
  - apply IH; [done|done|]. by rewrite length_insert.
Qed.
End FillFacts.

Section OnePerIndexFacts.
Context {A : Type}.
Implicit Types (calls : list (Invocation A)).

Lemma onePerIndex_NoDup n calls : OnePerIndex n calls -> NoDup (map fst calls).
Proof. unfold OnePerIndex. intros ->. apply NoDup_seq. Qed.

Lemma onePerIndex_lt n calls i o : OnePerIndex n calls -> In (i, o) calls -> i < n.
Proof.
  intros H Hin.
  assert (Hi : In i (seq 0 n)).
  { eapply Permutation_in; [exact H|]. apply in_map_iff. exists (i, o); done. }
  apply in_seq in Hi. lia.
Qed.

Lemma onePerIndex_cover n calls i : OnePerIndex n calls -> i < n -> exists o, In (i, o) calls.
Proof.
  intros H Hlt.
  assert (Hi : In i (map fst calls)).
  { eapply Permutation_in; [symmetry; exact H|]. apply in_seq. lia. }
  apply in_map_iff in Hi as [[j o] [Hj Hin]]. simpl in Hj; subst. eauto.
Qed.

Lemma fillSlots_replicate {Slot} (h : Outcome A -> Slot) n calls (d : Slot) :
  OnePerIndex n calls ->
  length (fillSlots h calls (replicate n d)) = n /\
  forall i o, In (i, o) calls -> fillSlots h calls (replicate n d) !! i = Some (h o).
Proof.
  intros H. split.
  - by rewrite length_fillSlots, length_replicate.
  - intros i o Hin. apply fillSlots_lookup; [by eapply onePerIndex_NoDup|done|].
    rewrite length_replicate. by eapply onePerIndex_lt.
Qed.

(** The two plural wrappers over the same successful invocations. *)
Lemma order_restoring n calls (dA : A) (dV : BatchElementError + A)
    (succE : nat -> A -> list A -> Result (list A))
    (errE : nat -> BatchElementError -> list A -> Result (list A))
    (succV : nat -> A -> list (BatchElementError + A) -> Result (list (BatchElementError + A)))
    (errV : nat -> BatchElementError -> list (BatchElementError + A) ->
            Result (list (BatchElementError + A))) :
  OnePerIndex n calls -> AllSucceed calls ->
  (forall i v r, succE i v r = inr (<[i := v]> r)) ->
  (forall i v r, succV i v r = inr (<[i := inr v]> r)) ->
  OrderRestored n calls (invokeCallbacks succE errE calls (replicate n dA))
    (invokeCallbacks succV errV calls (replicate n dV)).
Proof.
  intros Hone Hall HsE HsV.
  set (hE := fun o : Outcome A => match o with Success v => v | Failure _ => dA end).
  assert (Hnofail : forall i e, ~ In (i, Failure e) calls).
  { intros i e Hin. unfold AllSucceed in Hall. rewrite List.Forall_forall in Hall.
    apply Hall in Hin. discriminate. }
  rewrite (invokeCallbacks_fill hE succE errE) by
    (intros; first [rewrite HsE; done | exfalso; eapply Hnofail; eauto]).
  rewrite (invokeCallbacks_fill variantSlot succV errV) by
    (intros; first [rewrite HsV; done | exfalso; eapply Hnofail; eauto]).
  destruct (fillSlots_replicate hE n calls dA Hone) as [HlenE HgetE].
  destruct (fillSlots_replicate variantSlot n calls dV Hone) as [HlenV HgetV].
  exists (fillSlots hE calls (replicate n dA)). repeat split; [|done|].
  - f_equal. apply list_eq. intros i. rewrite list_lookup_fmap.
    destruct (decide (i < n)) as [Hlt|Hge].
    + destruct (onePerIndex_cover n calls i Hone Hlt) as [[v|e] Hin];
        [|exfalso; eapply Hnofail; eauto].
      rewrite (HgetE _ _ Hin), (HgetV _ _ Hin). done.
    + rewrite !lookup_ge_None_2; [done|lia|lia].
  - intros i v Hin. by rewrite (HgetE _ _ Hin).
Qed.

(** A Variant-policy wrapper stores every invocation in its slot. *)
Lemma variant_complete n calls (dV : BatchElementError + A)
    (succV : nat -> A -> list (BatchElementError + A) -> Result (list (BatchElementError + A)))
    (errV : nat -> BatchElementError -> list (BatchElementError + A) ->
            Result (list (BatchElementError + A))) :
  OnePerIndex n calls ->
  (forall i v r, succV i v r = inr (<[i := inr v]> r)) ->
  (forall i e r, errV i e r = inr (<[i := inl e]> r)) ->
  VariantComplete n calls (invokeCallbacks succV errV calls (replicate n dV)).
Proof.
  intros Hone HsV HeV.
  rewrite (invokeCallbacks_fill variantSlot succV errV) by
    (intros; first [rewrite HsV; done | rewrite HeV; done]).
  destruct (fillSlots_replicate variantSlot n calls dV Hone) as [Hlen Hget].
  eexists; split; [done|]. split; [done|]. exact Hget.
Qed.
End OnePerIndexFacts.

(** ** Wrapper-level facts *)

(** Unfold a wrapper down to the plugin's invocations, passing the length
    check of [preflight]/[register_] when the lengths agree. *)
Ltac unfold_wrapper :=
  unfold Legacy.resolve_exc, Legacy.resolve_variant, Legacy.preflight_exc,
    Legacy.preflight_variant, Legacy.register_exc, Legacy.register_variant,
    Conveniences.resolve_exc, Conveniences.resolve_variant, Conveniences.preflight_exc,
    Conveniences.preflight_variant, Conveniences.register_exc,
    Conveniences.register_variant, resolve_cb, preflight_cb, register_cb;
  repeat match goal with
         | H : length ?a = length ?b |- context [Nat.eqb (length ?a) (length ?b)] =>
             rewrite (proj2 (Nat.eqb_eq (length a) (length b)) H); simpl negb; cbv iota
         end.

Ltac solve_order :=
  unfold_wrapper; apply order_restoring; first [assumption | intros; reflexivity].

Ltac solve_variant :=
  unfold_wrapper; apply variant_complete; first [assumption | intros; reflexivity].

(** Claim C2 (order restoring): for N inputs and any order in which the
    plugin invokes the success callbacks, one per index and no error, the
    plural Exception-policy wrapper returns N values, the value delivered
    for index [i] at index [i], and the plural Variant-policy wrapper
    returns the same values as successes; for resolve, preflight and
    register_, in Manager.cpp and in ManagerConveniences.cpp. *)
Theorem exception_policy_restores_index_order (m : Manager) (context : ContextConstPtr)
    (acc : Access) :
  (forall (refs : EntityReferences) (traitSet : TraitSet),
     let calls := mi_resolve (managerInterface_ m) refs traitSet acc context (hostSession_ m) in
     OnePerIndex (length refs) calls -> AllSucceed calls ->
     OrderRestored (length refs) calls (Legacy.resolve_exc m refs traitSet acc context)
       (Legacy.resolve_variant m refs traitSet acc context) /\
     OrderRestored (length refs) calls (Conveniences.resolve_exc m refs traitSet acc context)
       (Conveniences.resolve_variant m refs traitSet acc context)) /\
  (forall (refs : EntityReferences) (hints : TraitsDatas),
     let calls := mi_preflight (managerInterface_ m) refs hints acc context (hostSession_ m) in
     length refs = length hints ->
     OnePerIndex (length refs) calls -> AllSucceed calls ->
     OrderRestored (length refs) calls (Legacy.preflight_exc m refs hints acc context)
       (Legacy.preflight_variant m refs hints acc context) /\
     OrderRestored (length refs) calls (Conveniences.preflight_exc m refs hints acc context)
       (Conveniences.preflight_variant m refs hints acc context)) /\
  (forall (refs : EntityReferences) (datas : TraitsDatas),
     let calls := mi_register_ (managerInterface_ m) refs datas acc context (hostSession_ m) in
     length refs = length datas ->
     OnePerIndex (length refs) calls -> AllSucceed calls ->
     OrderRestored (length refs) calls (Legacy.register_exc m refs datas acc context)
       (Legacy.register_variant m refs datas acc context) /\
     OrderRestored (length refs) calls (Conveniences.register_exc m refs datas acc context)
       (Conveniences.register_variant m refs datas acc context)).
Proof.
  split; [|split]; intros refs x calls; repeat intros ?; split; solve_order.
Qed.

(** Claim C3 (Variant-policy totality): for N inputs and any mix of
    success and error invocations by the plugin, one per index, the plural
    Variant-policy wrapper does not throw and returns N slots, the slot of
    index [i] holding the success value or the [BatchElementError] of that
    index's invocation; for resolve, preflight and register_ (whose length
    check must pass for the plugin to be invoked at all), in Manager.cpp
    and in ManagerConveniences.cpp. *)
Theorem variant_policy_total (m : Manager) (context : ContextConstPtr) (acc : Access) :
  (forall (refs : EntityReferences) (traitSet : TraitSet),
     let calls := mi_resolve (managerInterface_ m) refs traitSet acc context (hostSession_ m) in
     OnePerIndex (length refs) calls ->
     VariantComplete (length refs) calls (Legacy.resolve_variant m refs traitSet acc context) /\
     VariantComplete (length refs) calls
       (Conveniences.resolve_variant m refs traitSet acc context)) /\
  (forall (refs : EntityReferences) (hints : TraitsDatas),
     let calls := mi_preflight (managerInterface_ m) refs hints acc context (hostSession_ m) in
     length refs = length hints -> OnePerIndex (length refs) calls ->
     VariantComplete (length refs) calls (Legacy.preflight_variant m refs hints acc context) /\
     VariantComplete (length refs) calls
       (Conveniences.preflight_variant m refs hints acc context)) /\
  (forall (refs : EntityReferences) (datas : TraitsDatas),
     let calls := mi_register_ (managerInterface_ m) refs datas acc context (hostSession_ m) in
     length refs = length datas -> OnePerIndex (length refs) calls ->
     VariantComplete (length refs) calls (Legacy.register_variant m refs datas acc context) /\
     VariantComplete (length refs) calls
       (Conveniences.register_variant m refs datas acc context)).
Proof.
  split; [|split]; intros refs x calls; repeat intros ?; split; solve_variant.
Qed.

Lemma string_app_assoc (a b c : string) : (a ++ b) ++ c = a ++ b ++ c.
Proof. induction a as [|ch a IH]; [reflexivity|]. exact (f_equal (String ch) IH). Qed.

(** The typed exception of [throwFromBatchElementError] is raised for
    the index it is given. *)
Lemma throwFromBatchElementError_index {X} i e data :
  throwsAtIndex (Legacy.throwFromBatchElementError (X:=X) i e data) i.
Proof.
  unfold Legacy.throwFromBatchElementError; destruct (code e); eexists; split; reflexivity.
Qed.

Lemma throwWithMessage_index {X} i e ref acc :
  throwsAtIndex (Conveniences.throwWithMessage (X:=X) i e ref acc) i.
Proof. eexists; split; reflexivity. Qed.

Ltac solve_fail_fast Hcalls :=
  unfold_wrapper; rewrite Hcalls;
  match goal with
  | |- ?l = ?t /\ throwsAtIndex _ _ =>
      assert (Hres : l = t) by
        (apply invokeCallbacks_first_failure;
         [intros; eexists; reflexivity | intros; reflexivity | assumption]);
      rewrite Hres; split;
      [reflexivity | first [apply throwFromBatchElementError_index | apply throwWithMessage_index]]
  end.

(** Claim C1 (fail-fast Exception policy, as the code has it): when the
    plugin's invocations are successes [pre], then an error [e] for index
    [i], then anything, the plural Exception-policy wrapper raises an
    exception for index [i] and nothing after the error is observed.
    Manager.cpp raises the exception [throwFromBatchElementError] maps
    [e] to, with the element's data; ManagerConveniences.cpp raises a
    plain [BatchElementException] whose message is
    [createBatchElementExceptionMessage] of the error, index, reference and
    access, whatever the code.  For resolve, preflight and register_. *)
Theorem exception_policy_fails_fast (m : Manager) (context : ContextConstPtr) (acc : Access) :
  (forall (refs : EntityReferences) (ts : TraitSet) pre i e post,
     mi_resolve (managerInterface_ m) refs ts acc context (hostSession_ m) =
       (pre ++ (i, Failure e) :: post)%list ->
     AllSucceed pre ->
     (Legacy.resolve_exc m refs ts acc context =
        Legacy.throwFromBatchElementError i e
          (Legacy.mkBatchElementExceptionData (refs !! i) None (Some ts)) /\
      throwsAtIndex (Legacy.resolve_exc m refs ts acc context) i) /\
     (Conveniences.resolve_exc m refs ts acc context =
        Conveniences.throwWithMessage i e (refs !! i) acc /\
      throwsAtIndex (Conveniences.resolve_exc m refs ts acc context) i)) /\
  (forall (refs : EntityReferences) (hints : TraitsDatas) pre i e post,
     length refs = length hints ->
     mi_preflight (managerInterface_ m) refs hints acc context (hostSession_ m) =
       (pre ++ (i, Failure e) :: post)%list ->
     AllSucceed pre ->
     (Legacy.preflight_exc m refs hints acc context =
        Legacy.throwFromBatchElementError i e
          (Legacy.mkBatchElementExceptionData (refs !! i) (hints !! i) None) /\
      throwsAtIndex (Legacy.preflight_exc m refs hints acc context) i) /\
     (Conveniences.preflight_exc m refs hints acc context =
        Conveniences.throwWithMessage i e (refs !! i) acc /\
      throwsAtIndex (Conveniences.preflight_exc m refs hints acc context) i)) /\
  (forall (refs : EntityReferences) (datas : TraitsDatas) pre i e post,
     length refs = length datas ->
     mi_register_ (managerInterface_ m) refs datas acc context (hostSession_ m) =
       (pre ++ (i, Failure e) :: post)%list ->
     AllSucceed pre ->
     (Legacy.register_exc m refs datas acc context =
        Legacy.throwFromBatchElementError i e
          (Legacy.mkBatchElementExceptionData (refs !! i) (datas !! i) None) /\
      throwsAtIndex (Legacy.register_exc m refs datas acc context) i) /\
     (Conveniences.register_exc m refs datas acc context =
        Conveniences.throwWithMessage i e (refs !! i) acc /\
      throwsAtIndex (Conveniences.register_exc m refs datas acc context) i)).
Proof.
  split; [|split].
  - intros refs ts pre i e post Hcalls Hpre; split; solve_fail_fast Hcalls.
  - intros refs hints pre i e post Hlen Hcalls Hpre; split; solve_fail_fast Hcalls.
  - intros refs datas pre i e post Hlen Hcalls Hpre; split; solve_fail_fast Hcalls.
Qed.

(** Claim C4 (input-shape validation precedes dispatch): the callback
    forms of preflight and register_ raise an [InputValidationException]
    when the reference list and the hints/datas list differ in length, a
    result that does not depend on the plugin at all; with equal lengths
    they run exactly the plugin's invocations for the unchanged
    arguments. *)
Theorem publish_validates_lengths_first {S : Type} (m : Manager) (refs : EntityReferences)
    (others : TraitsDatas) (acc : Access) (context : ContextConstPtr)
    (succ : nat -> EntityReference -> S -> Result S)
    (err : nat -> BatchElementError -> S -> Result S) (s : S) :
  (length refs <> length others ->
     preflight_cb m refs others acc context succ err s =
       throw (InputValidationException
                (lengthMismatchMessage (length refs) (length others) "traits hints")) /\
     register_cb m refs others acc context succ err s =
       throw (InputValidationException
                (lengthMismatchMessage (length refs) (length others) "traits datas"))) /\
  (length refs = length others ->
     preflight_cb m refs others acc context succ err s =
       invokeCallbacks succ err
         (mi_preflight (managerInterface_ m) refs others acc context (hostSession_ m)) s /\
     register_cb m refs others acc context succ err s =
       invokeCallbacks succ err
         (mi_register_ (managerInterface_ m) refs others acc context (hostSession_ m)) s).
Proof.
  unfold preflight_cb, register_cb; split; intros Hlen.
  - apply Nat.eqb_neq in Hlen. rewrite Hlen. split; reflexivity.
  - apply Nat.eqb_eq in Hlen. rewrite Hlen. split; reflexivity.
Qed.

(** Claim C5, the code against it.  [createBatchElementExceptionMessage]
    is the spec's format exactly when the error's message is not empty;
    with an empty message the [" <message>"] segment is left out, as the
    function's comment intends ("If existing, the message"), so the
    result is the spec's string without the blank after the colon.
    [errorCodeName] gives the seven codes of its switch their fixed names.
    Its switch has no case for the declared enumerator
    [kInvalidTraitsData], which therefore falls through to
    ["Unknown ErrorCode"], the name meant for values outside the
    enumeration: a defect, the one that breaks the claim. *)
Theorem batch_element_exception_message_format (err : BatchElementError) (index : nat)
    (entityReference : option EntityReference) (acc : option Access) :
  (message err <> "" ->
     createBatchElementExceptionMessage err index entityReference acc =
       specBatchElementExceptionMessage err index entityReference acc) /\
  (message err = "" ->
     exists rest,
       specBatchElementExceptionMessage err index entityReference acc =
         errorCodeName (code err) ++ ": " ++ rest /\
       createBatchElementExceptionMessage err index entityReference acc =
         errorCodeName (code err) ++ ":" ++ rest) /\
  errorCodeName kUnknown = "unknown" /\
  errorCodeName kInvalidEntityReference = "invalidEntityReference" /\
  errorCodeName kMalformedEntityReference = "malformedEntityReference" /\
  errorCodeName kEntityAccessError = "entityAccessError" /\
  errorCodeName kEntityResolutionError = "entityResolutionError" /\
  errorCodeName kInvalidPreflightHint = "invalidPreflightHint" /\
  errorCodeName kInvalidTraitSet = "invalidTraitSet" /\
  errorCodeName kInvalidTraitsData = "Unknown ErrorCode".
Proof.
  unfold createBatchElementExceptionMessage, specBatchElementExceptionMessage.
  split; [|split; [|repeat split]].
  - destruct err as [c msg]; simpl; intros Hne.
    destruct msg as [|ch msg']; [congruence|].
    rewrite !string_app_assoc. reflexivity.
  - destruct err as [c msg]; simpl; intros ->.
    eexists; split; [reflexivity|]. rewrite !string_app_assoc. reflexivity.
Qed.

(** Claim C6 (the tested singular case): when the plugin answers the
    single reference ["testReference"] with a [kMalformedEntityReference]
    error ["Error Message"] at index 0, the singular Exception-policy
    resolve of Manager.cpp raises a
    [MalformedEntityReferenceBatchElementException] whose message is
    ["Error Message [testReference]"] and whose index is 0. *)
Theorem resolve_single_malformed_reference (m : Manager) (ts : TraitSet) (acc : Access)
    (context : ContextConstPtr) (post : list (Invocation TraitsDataPtr)) :
  mi_resolve (managerInterface_ m) [mkEntityReference "testReference"] ts acc context
    (hostSession_ m) =
    (0, Failure {| code := kMalformedEntityReference; message := "Error Message" |}) :: post ->
  exists ex,
    Legacy.resolve_single_exc m (mkEntityReference "testReference") ts acc context =
      inl (BatchElementExc ex) /\
    exceptionType ex = TMalformedEntityReferenceBatchElementException /\
    what ex = "Error Message [testReference]" /\
    index ex = 0.
Proof.
  intros Hcalls.
  unfold Legacy.resolve_single_exc, resolve_cb. rewrite Hcalls.
  eexists; repeat split.
Qed.

(** Claim C7 (the error-to-exception mapping is total): for each declared
    code, [throwFromBatchElementError] raises the exception type the spec
    pairs with the code, for the given index and error, with the message
    and data fields that type takes from the wrapper's data (none for
    [kUnknown]; the reference for the reference errors; also the traits
    data for the traits-data and preflight-hint errors; also the trait set
    for the trait-set error), never the annotated fall-through message; a
    value outside the enumeration raises an [UnknownBatchElementException]
    whose message says the code was invalid. *)
Theorem throwFromBatchElementError_total {X : Type} (idx : nat) (err : BatchElementError)
    (data : Legacy.BatchElementExceptionData) :
  (isEnumerator (code err) = true ->
   exists ex,
     Legacy.throwFromBatchElementError (X:=X) idx err data = inl (BatchElementExc ex) /\
     specExceptionTypeFor (code err) = Some (exceptionType ex) /\
     index ex = idx /\ error ex = err /\
     what ex = (match code err with
                | kUnknown => message err
                | _ => constructErrorMessage (message err) (Legacy.entityRef data)
                end) /\
     entityReference ex = (match code err with
                           | kUnknown => None
                           | _ => Legacy.entityRef data
                           end) /\
     traitsData ex = (match code err with
                      | kInvalidTraitsData | kInvalidPreflightHint => Legacy.traitsData data
                      | _ => None
                      end) /\
     traitSet ex = (match code err with
                    | kInvalidTraitSet => Legacy.traitSet data
                    | _ => None
                    end)) /\
  (forall z, code err = ErrorCodeValue z ->
   exists ex,
     Legacy.throwFromBatchElementError (X:=X) idx err data = inl (BatchElementExc ex) /\
     exceptionType ex = TUnknownBatchElementException /\
     index ex = idx /\ code (error ex) = code err /\
     what ex = "Invalid BatchElementError. Code: " ++ pretty z ++ " Message: " ++ message err).
Proof.
  unfold Legacy.throwFromBatchElementError; split.
  - destruct err as [c msg]; simpl; destruct c; simpl; try discriminate; intros _;
      eexists; repeat split.
  - intros z Hz. rewrite Hz. eexists; repeat split.
Qed.

(** Claim C8 (entity-reference validation gate): [createEntityReference]
    succeeds exactly when [isEntityReferenceString] holds, and then returns
    the reference whose string is the input; otherwise it raises the
    [InputValidationException] ["Invalid entity reference: <s>"].
    [createEntityReferenceIfValid] returns the same reference under the
    same condition and nothing otherwise. *)
Theorem createEntityReference_gate (m : Manager) (s : string) :
  (isEntityReferenceString m s = true ->
     createEntityReference m s = inr (mkEntityReference s) /\
     createEntityReferenceIfValid m s = Some (mkEntityReference s)) /\
  (isEntityReferenceString m s = false ->
     createEntityReference m s =
       throw (InputValidationException ("Invalid entity reference: " ++ s)) /\
     createEntityReferenceIfValid m s = None) /\
  (forall r, createEntityReference m s = inr r <->
             isEntityReferenceString m s = true /\ toString r = s) /\
  (forall r, createEntityReferenceIfValid m s = Some r <->
             createEntityReference m s = inr r).
Proof.
  unfold createEntityReference, createEntityReferenceIfValid.
  destruct (isEntityReferenceString m s) eqn:Hv; simpl.
  - split; [done|]. split; [discriminate|].
    split; intros r; split.
    + intros H; inversion H; subst; done.
    + destruct r as [r]; simpl; intros [_ ->]; done.
    + intros H; inversion H; subst; done.
    + intros H; inversion H; subst; done.
  - split; [discriminate|]. split; [done|].
    split; intros r; split; intros H; try discriminate; destruct H; discriminate.
Qed.

(** Claim C9 (the pager forwards): [hasNext], [get] and [next] each make
    exactly one call to the backend's method of the same name, with the
    pager's host session, and return the backend's answer as it is; the
    pager keeps no state of its own, so two [get]s in a row make two
    backend calls.  A pager made by the paged queries holds the manager's
    host session. *)
Theorem pager_forwards {B : Type} (backend : PagerBackend B) (p : EntityReferencePager)
    (w : PagerWorld B) :
  pager_hasNext backend p w =
    (fst (pb_hasNext backend (pagerInterface_ p) (pagerHostSession_ p) (backendState w)),
     mkPagerWorld (snd (pb_hasNext backend (pagerInterface_ p) (pagerHostSession_ p)
                          (backendState w)))
       (backendCalls w ++ [CallHasNext (pagerInterface_ p) (pagerHostSession_ p)])) /\
  pager_get backend p w =
    (fst (pb_get backend (pagerInterface_ p) (pagerHostSession_ p) (backendState w)),
     mkPagerWorld (snd (pb_get backend (pagerInterface_ p) (pagerHostSession_ p)
                          (backendState w)))
       (backendCalls w ++ [CallGet (pagerInterface_ p) (pagerHostSession_ p)])) /\
  pager_next backend p w =
    mkPagerWorld (pb_next backend (pagerInterface_ p) (pagerHostSession_ p) (backendState w))
      (backendCalls w ++ [CallNext (pagerInterface_ p) (pagerHostSession_ p)]) /\
  (let w1 := snd (pager_get backend p w) in
   let w2 := snd (pager_get backend p w1) in
   fst (pager_get backend p w1) =
     fst (pb_get backend (pagerInterface_ p) (pagerHostSession_ p) (backendState w1)) /\
   backendCalls w2 =
     (backendCalls w ++ [CallGet (pagerInterface_ p) (pagerHostSession_ p);
                         CallGet (pagerInterface_ p) (pagerHostSession_ p)])%list) /\
  (forall {S} (m : Manager) (succ : nat -> EntityReferencePager -> S -> Result S) idx
          (pagerInterface : EntityReferencePagerInterfacePtr) (s : S),
     convertingPagerSuccessCallback m succ idx pagerInterface s =
       succ idx (mkEntityReferencePager pagerInterface (hostSession_ m)) s).
Proof.
  unfold pager_hasNext, pager_get, pager_next.
  destruct (pb_hasNext backend (pagerInterface_ p) (pagerHostSession_ p) (backendState w)).
  destruct (pb_get backend (pagerInterface_ p) (pagerHostSession_ p) (backendState w))
    as [r b'] eqn:Hget.
  split; [done|]. split; [done|]. split; [done|]. split.
  - simpl. destruct (pb_get backend (pagerInterface_ p) (pagerHostSession_ p) b').
    simpl. split; [done|]. by rewrite <- (assoc (++)%list).
  - intros S m succ idx pagerInterface s. reflexivity.
Qed.

(** Claim C10 (the page size precondition): both paged queries raise the
    [InputValidationException] ["pageSize must be greater than zero."]
    for a page size of 0, whatever the plugin; for a positive page size
    they run the plugin's invocations for the unchanged arguments, its
    pagers wrapped with the manager's host session. *)
Theorem paged_queries_require_positive_page_size {S : Type} (m : Manager)
    (refs : EntityReferences) (relationshipTraitsData : TraitsDataPtr)
    (ref : EntityReference) (relationshipTraitsDatas : TraitsDatas) (acc : Access)
    (context : ContextConstPtr) (succ : nat -> EntityReferencePager -> S -> Result S)
    (err : nat -> BatchElementError -> S -> Result S) (resultTraitSet : TraitSet) (s : S) :
  (getWithRelationshipPaged m refs relationshipTraitsData 0 acc context succ err
     resultTraitSet s =
     throw (InputValidationException "pageSize must be greater than zero.") /\
   getWithRelationshipsPaged m ref relationshipTraitsDatas 0 acc context succ err
     resultTraitSet s =
     throw (InputValidationException "pageSize must be greater than zero.")) /\
  (forall pageSize, 0 < pageSize ->
   getWithRelationshipPaged m refs relationshipTraitsData pageSize acc context succ err
     resultTraitSet s =
     invokeCallbacks (convertingPagerSuccessCallback m succ) err
       (mi_getWithRelationshipPaged (managerInterface_ m) refs relationshipTraitsData
          resultTraitSet pageSize acc context (hostSession_ m)) s /\
   getWithRelationshipsPaged m ref relationshipTraitsDatas pageSize acc context succ err
     resultTraitSet s =
     invokeCallbacks (convertingPagerSuccessCallback m succ) err
       (mi_getWithRelationshipsPaged (managerInterface_ m) ref relationshipTraitsDatas
          resultTraitSet pageSize acc context (hostSession_ m)) s).
Proof.
  unfold getWithRelationshipPaged, getWithRelationshipsPaged. split.
  - split; reflexivity.
  - intros pageSize Hpos. destruct pageSize as [|n]; [lia|]. split; reflexivity.
Qed.

(** ** Witnesses and counterexamples

    Concrete runs of the scripted plugin: three references, the plugin
    answering out of index order. *)

(** Settle a decidable proposition about concrete data by evaluation. *)
Ltac decide_concrete := apply (bool_decide_unpack _); vm_compute; exact I.

(** The hypotheses of C1 hold for a plugin that succeeds for index 0,
    fails for index 2 and would then succeed for index 1. *)
Lemma exception_policy_fails_fast_witness :
  let refs := [mkEntityReference "bal:///a"; mkEntityReference "bal:///b";
               mkEntityReference "bal:///c"] in
  let hints := [TraitsDataAt 1; TraitsDataAt 2; TraitsDataAt 3] in
  let e := {| code := kEntityAccessError; message := "denied" |} in
  let m := mockManager [(0, Success (TraitsDataAt 10)); (2, Failure e);
                        (1, Success (TraitsDataAt 11))]
             [(0, Success (mkEntityReference "bal:///a#1")); (2, Failure e);
              (1, Success (mkEntityReference "bal:///b#1"))] [] in
  (Legacy.resolve_exc m refs [] kRead 0 =
     Legacy.throwFromBatchElementError 2 e
       (Legacy.mkBatchElementExceptionData (refs !! 2) None (Some [])) /\
   throwsAtIndex (Legacy.resolve_exc m refs [] kRead 0) 2) /\
  (Conveniences.preflight_exc m refs hints kWrite 0 =
     Conveniences.throwWithMessage 2 e (refs !! 2) kWrite /\
   throwsAtIndex (Conveniences.preflight_exc m refs hints kWrite 0) 2) /\
  (Legacy.register_exc m refs hints kWrite 0 =
     Legacy.throwFromBatchElementError 2 e
       (Legacy.mkBatchElementExceptionData (refs !! 2) (hints !! 2) None) /\
   throwsAtIndex (Legacy.register_exc m refs hints kWrite 0) 2).
Proof.
  intros refs hints e m.
  assert (Hpre1 : AllSucceed [(0, @Success TraitsDataPtr (TraitsDataAt 10))])
    by (unfold AllSucceed; decide_concrete).
  assert (Hpre2 : AllSucceed [(0, Success (mkEntityReference "bal:///a#1"))])
    by (unfold AllSucceed; decide_concrete).
  split; [|split].
  - exact (proj1 (proj1 (exception_policy_fails_fast m 0 kRead) refs []
                           [(0, Success (TraitsDataAt 10))] 2 e
                           [(1, Success (TraitsDataAt 11))] eq_refl Hpre1)).
  - exact (proj2 (proj1 (proj2 (exception_policy_fails_fast m 0 kWrite)) refs hints
                           [(0, Success (mkEntityReference "bal:///a#1"))] 2 e
                           [(1, Success (mkEntityReference "bal:///b#1"))] eq_refl eq_refl
                           Hpre2)).
  - exact (proj1 (proj2 (proj2 (exception_policy_fails_fast m 0 kWrite)) refs hints
                           [(0, Success (mkEntityReference "bal:///a#1"))] 2 e
                           [(1, Success (mkEntityReference "bal:///b#1"))] eq_refl eq_refl
                           Hpre2)).
Defined.

(** C1 as stated, with the spec's pairing of codes and exception types,
    fails for ManagerConveniences.cpp: an error [kMalformedEntityReference]
    raises a plain [BatchElementException], not the paired
    [MalformedEntityReferenceBatchElementException] that Manager.cpp
    raises. *)
Lemma exception_policy_fails_fast_counterexample :
  let e := {| code := kMalformedEntityReference; message := "Error Message" |} in
  let m := mockManager [(0, Failure e)] [] [] in
  exists ex ex',
    Conveniences.resolve_exc m [mkEntityReference "testReference"] [] kRead 0 =
      inl (BatchElementExc ex) /\
    Some (exceptionType ex) <> specExceptionTypeFor (code e) /\
    exceptionType ex = TBatchElementException /\
    Legacy.resolve_exc m [mkEntityReference "testReference"] [] kRead 0 =
      inl (BatchElementExc ex') /\
    Some (exceptionType ex') = specExceptionTypeFor (code e).
Proof.
  intros e m. do 2 eexists. split; [reflexivity|]. split; [discriminate|].
  split; [reflexivity|]. split; reflexivity.
Qed.

(** The hypotheses of C2 hold for a plugin that delivers index 2, then
    0, then 1. *)
Lemma exception_policy_restores_index_order_witness :
  let refs := [mkEntityReference "bal:///a"; mkEntityReference "bal:///b";
               mkEntityReference "bal:///c"] in
  let hints := [TraitsDataAt 1; TraitsDataAt 2; TraitsDataAt 3] in
  let rcalls := [(2, Success (TraitsDataAt 12)); (0, Success (TraitsDataAt 10));
                 (1, Success (TraitsDataAt 11))] in
  let pcalls := [(1, Success (mkEntityReference "bal:///b#1"));
                 (2, Success (mkEntityReference "bal:///c#1"));
                 (0, Success (mkEntityReference "bal:///a#1"))] in
  let m := mockManager rcalls pcalls [] in
  (OrderRestored 3 rcalls (Legacy.resolve_exc m refs [] kRead 0)
     (Legacy.resolve_variant m refs [] kRead 0) /\
   OrderRestored 3 rcalls (Conveniences.resolve_exc m refs [] kRead 0)
     (Conveniences.resolve_variant m refs [] kRead 0)) /\
  (OrderRestored 3 pcalls (Legacy.preflight_exc m refs hints kWrite 0)
     (Legacy.preflight_variant m refs hints kWrite 0) /\
   OrderRestored 3 pcalls (Conveniences.preflight_exc m refs hints kWrite 0)
     (Conveniences.preflight_variant m refs hints kWrite 0)) /\
  (OrderRestored 3 pcalls (Legacy.register_exc m refs hints kWrite 0)
     (Legacy.register_variant m refs hints kWrite 0) /\
   OrderRestored 3 pcalls (Conveniences.register_exc m refs hints kWrite 0)
     (Conveniences.register_variant m refs hints kWrite 0)).
Proof.
  intros refs hints rcalls pcalls m.
  assert (Hr1 : OnePerIndex 3 rcalls) by (unfold OnePerIndex; decide_concrete).
  assert (Hr2 : AllSucceed rcalls) by (unfold AllSucceed; decide_concrete).
  assert (Hp1 : OnePerIndex 3 pcalls) by (unfold OnePerIndex; decide_concrete).
  assert (Hp2 : AllSucceed pcalls) by (unfold AllSucceed; decide_concrete).
  destruct (exception_policy_restores_index_order m 0 kRead) as [Hres _].
  destruct (exception_policy_restores_index_order m 0 kWrite) as [_ [Hpre Hreg]].
  split; [|split].
  - exact (Hres refs [] Hr1 Hr2).
  - exact (Hpre refs hints eq_refl Hp1 Hp2).
  - exact (Hreg refs hints eq_refl Hp1 Hp2).
Defined.

(** The hypotheses of C3 hold for a plugin that mixes errors and
    successes out of index order. *)
Lemma variant_policy_total_witness :
  let refs := [mkEntityReference "bal:///a"; mkEntityReference "bal:///b";
               mkEntityReference "bal:///c"] in
  let datas := [TraitsDataAt 1; TraitsDataAt 2; TraitsDataAt 3] in
  let e := {| code := kEntityResolutionError; message := "missing" |} in
  let rcalls := [(2, Failure e); (0, Success (TraitsDataAt 10)); (1, Failure e)] in
  let pcalls := [(1, Success (mkEntityReference "bal:///b#1")); (0, Failure e);
                 (2, Success (mkEntityReference "bal:///c#1"))] in
  let m := mockManager rcalls pcalls [] in
  (VariantComplete 3 rcalls (Legacy.resolve_variant m refs [] kRead 0) /\
   VariantComplete 3 rcalls (Conveniences.resolve_variant m refs [] kRead 0)) /\
  (VariantComplete 3 pcalls (Legacy.preflight_variant m refs datas kWrite 0) /\
   VariantComplete 3 pcalls (Conveniences.preflight_variant m refs datas kWrite 0)) /\
  (VariantComplete 3 pcalls (Legacy.register_variant m refs datas kWrite 0) /\
   VariantComplete 3 pcalls (Conveniences.register_variant m refs datas kWrite 0)).
Proof.
  intros refs datas e rcalls pcalls m.
  assert (Hr : OnePerIndex 3 rcalls) by (unfold OnePerIndex; decide_concrete).
  assert (Hp : OnePerIndex 3 pcalls) by (unfold OnePerIndex; decide_concrete).
  destruct (variant_policy_total m 0 kRead) as [Hres _].
  destruct (variant_policy_total m 0 kWrite) as [_ [Hpre Hreg]].
  split; [|split].
  - exact (Hres refs [] Hr).
  - exact (Hpre refs datas eq_refl Hp).
  - exact (Hreg refs datas eq_refl Hp).
Defined.

(** The two cases of C4: two references with one hint, and two of each. *)
Lemma publish_validates_lengths_first_witness :
  let m := mockManager [] [(0, Success (mkEntityReference "bal:///a#1"))] [] in
  let refs := [mkEntityReference "bal:///a"; mkEntityReference "bal:///b"] in
  let succ := fun (i : nat) (r : EntityReference) (rs : list EntityReference) =>
                mret (<[i := r]> rs) : Result (list EntityReference) in
  let err := fun (i : nat) (e : BatchElementError) (rs : list EntityReference) =>
               mret rs : Result (list EntityReference) in
  (preflight_cb m refs [TraitsDataAt 1] kWrite 0 succ err [] =
     throw (InputValidationException (lengthMismatchMessage 2 1 "traits hints")) /\
   register_cb m refs [TraitsDataAt 1] kWrite 0 succ err [] =
     throw (InputValidationException (lengthMismatchMessage 2 1 "traits datas"))) /\
  (preflight_cb m refs [TraitsDataAt 1; TraitsDataAt 2] kWrite 0 succ err [] =
     invokeCallbacks succ err
       (mi_preflight (managerInterface_ m) refs [TraitsDataAt 1; TraitsDataAt 2] kWrite 0
          (hostSession_ m)) [] /\
   register_cb m refs [TraitsDataAt 1; TraitsDataAt 2] kWrite 0 succ err [] =
     invokeCallbacks succ err
       (mi_register_ (managerInterface_ m) refs [TraitsDataAt 1; TraitsDataAt 2] kWrite 0
          (hostSession_ m)) []).
Proof.
  intros m refs succ err. split.
  - refine (proj1 (publish_validates_lengths_first m refs [TraitsDataAt 1] kWrite 0
                     succ err []) _). simpl; lia.
  - refine (proj2 (publish_validates_lengths_first m refs [TraitsDataAt 1; TraitsDataAt 2]
                     kWrite 0 succ err []) _). reflexivity.
Defined.

(** The input on which C5 fails: an error whose code is the declared
    enumerator [kInvalidTraitsData] is formatted with the fall-through
    name ["Unknown ErrorCode"], word for word as an out-of-range code
    value is, so no fixed name of its own appears in the message. *)
Lemma batch_element_exception_message_format_counterexample :
  isEnumerator kInvalidTraitsData = true /\
  isEnumerator (ErrorCodeValue 42) = false /\
  createBatchElementExceptionMessage {| code := kInvalidTraitsData; message := "m" |} 0
    None None = "Unknown ErrorCode: m [index=0]" /\
  createBatchElementExceptionMessage {| code := kInvalidTraitsData; message := "m" |} 0
    None None =
  createBatchElementExceptionMessage {| code := ErrorCodeValue 42; message := "m" |} 0
    None None.
Proof.
  split; [reflexivity|]. split; [reflexivity|]. split; vm_compute; reflexivity.
Qed.

(** The cases of C5: a message that is not empty, with access and
    reference, and an empty one. *)
Lemma batch_element_exception_message_format_witness :
  createBatchElementExceptionMessage {| code := kMalformedEntityReference;
                                        message := "Error Message" |} 0
    (Some (mkEntityReference "testReference")) (Some kRead) =
    "malformedEntityReference: Error Message [index=0] [access=read] [entity=testReference]" /\
  createBatchElementExceptionMessage {| code := kMalformedEntityReference;
                                        message := "Error Message" |} 0
    (Some (mkEntityReference "testReference")) (Some kRead) =
  specBatchElementExceptionMessage {| code := kMalformedEntityReference;
                                      message := "Error Message" |} 0
    (Some (mkEntityReference "testReference")) (Some kRead) /\
  exists rest,
    specBatchElementExceptionMessage {| code := kInvalidTraitSet; message := "" |} 12
      None (Some kWrite) = errorCodeName kInvalidTraitSet ++ ": " ++ rest /\
    createBatchElementExceptionMessage {| code := kInvalidTraitSet; message := "" |} 12
      None (Some kWrite) = errorCodeName kInvalidTraitSet ++ ":" ++ rest.
Proof.
  split; [vm_compute; reflexivity|]. split.
  - apply (proj1 (batch_element_exception_message_format
                    {| code := kMalformedEntityReference; message := "Error Message" |} 0
                    (Some (mkEntityReference "testReference")) (Some kRead))).
    simpl. discriminate.
  - apply (proj1 (proj2 (batch_element_exception_message_format
                           {| code := kInvalidTraitSet; message := "" |} 12
                           None (Some kWrite)))).
    reflexivity.
Defined.

(** The test's case for C6. *)
Lemma resolve_single_malformed_reference_witness :
  let e := {| code := kMalformedEntityReference; message := "Error Message" |} in
  let m := mockManager [(0, Failure e)] [] [] in
  exists ex,
    Legacy.resolve_single_exc m (mkEntityReference "testReference") ["aTrait"] kRead 0 =
      inl (BatchElementExc ex) /\
    exceptionType ex = TMalformedEntityReferenceBatchElementException /\
    what ex = "Error Message [testReference]" /\
    index ex = 0.
Proof.
  intros e m.
  apply (resolve_single_malformed_reference m ["aTrait"] kRead 0 []). reflexivity.
Defined.

(** Both cases of C7: a declared code and a value outside the
    enumeration. *)
Lemma throwFromBatchElementError_total_witness :
  let data := Legacy.mkBatchElementExceptionData (Some (mkEntityReference "bal:///a"))
                (Some (TraitsDataAt 1)) (Some ["aTrait"]) in
  let e := {| code := kInvalidTraitSet; message := "bad set" |} in
  let bad := {| code := ErrorCodeValue 99; message := "odd" |} in
  (exists ex,
     Legacy.throwFromBatchElementError (X:=unit) 4 e data = inl (BatchElementExc ex) /\
     specExceptionTypeFor (code e) = Some (exceptionType ex) /\
     index ex = 4 /\ error ex = e /\
     what ex = constructErrorMessage (message e) (Legacy.entityRef data) /\
     entityReference ex = Legacy.entityRef data /\ traitsData ex = None /\
     traitSet ex = Legacy.traitSet data) /\
  (exists ex,
     Legacy.throwFromBatchElementError (X:=unit) 4 bad data = inl (BatchElementExc ex) /\
     exceptionType ex = TUnknownBatchElementException /\
     index ex = 4 /\ code (error ex) = code bad /\
     what ex = "Invalid BatchElementError. Code: " ++ pretty 99%Z ++ " Message: " ++
               message bad).
Proof.
  intros data e bad. split.
  - apply (proj1 (throwFromBatchElementError_total (X:=unit) 4 e data)). reflexivity.
  - apply (proj2 (throwFromBatchElementError_total (X:=unit) 4 bad data) 99%Z). reflexivity.
Defined.

(** Both cases of C8, for a manager whose plugin accepts the strings
    starting with ["bal:///"]. *)
Lemma createEntityReference_gate_witness :
  let m := mockManager [] [] [] in
  (createEntityReference m "bal:///a" = inr (mkEntityReference "bal:///a") /\
   createEntityReferenceIfValid m "bal:///a" = Some (mkEntityReference "bal:///a")) /\
  (createEntityReference m "nope" =
     throw (InputValidationException ("Invalid entity reference: " ++ "nope")) /\
   createEntityReferenceIfValid m "nope" = None).
Proof.
  intros m. split.
  - apply (proj1 (createEntityReference_gate m "bal:///a")). vm_compute. reflexivity.
  - apply (proj1 (proj2 (createEntityReference_gate m "nope"))). vm_compute. reflexivity.
Defined.

(** Both cases of C10. *)
Lemma paged_queries_require_positive_page_size_witness :
  let m := mockManager [] [] [(0, Success 5)] in
  let succ := fun (i : nat) (p : EntityReferencePager) (ps : list EntityReferencePager) =>
                mret (<[i := p]> ps) : Result (list EntityReferencePager) in
  let err := fun (i : nat) (e : BatchElementError) (ps : list EntityReferencePager) =>
               mret ps : Result (list EntityReferencePager) in
  getWithRelationshipPaged m [mkEntityReference "bal:///a"] (TraitsDataAt 1) 0 kRead 0
    succ err [] [mkEntityReferencePager 0 0] =
    throw (InputValidationException "pageSize must be greater than zero.") /\
  getWithRelationshipPaged m [mkEntityReference "bal:///a"] (TraitsDataAt 1) 10 kRead 0
    succ err [] [mkEntityReferencePager 0 0] =
    invokeCallbacks (convertingPagerSuccessCallback m succ) err
      (mi_getWithRelationshipPaged (managerInterface_ m) [mkEntityReference "bal:///a"]
         (TraitsDataAt 1) [] 10 kRead 0 (hostSession_ m)) [mkEntityReferencePager 0 0].
Proof.
  intros m succ err. split.
  - exact (proj1 (proj1 (paged_queries_require_positive_page_size m
                           [mkEntityReference "bal:///a"] (TraitsDataAt 1)
                           (mkEntityReference "bal:///a") [] kRead 0 succ err []
                           [mkEntityReferencePager 0 0]))).
  - refine (proj1 (proj2 (paged_queries_require_positive_page_size m
                            [mkEntityReference "bal:///a"] (TraitsDataAt 1)
                            (mkEntityReference "bal:///a") [] kRead 0 succ err []
                            [mkEntityReferencePager 0 0]) 10 _)). lia.
Defined.

(** ** Further properties of the wrappers, initialization and contexts *)

Section ExtraDispatchFacts.
Context {S A : Type}.

(** A one-element batch: storing into slot 0 of a one-element container
    is returning the value. *)
Lemma invokeCallbacks_single_slot
    (succP : nat -> A -> list S -> Result (list S))
    (errP : nat -> BatchElementError -> list S -> Result (list S))
    (succS : nat -> A -> S -> Result S) (errS : nat -> BatchElementError -> S -> Result S)
    (calls : list (Invocation A)) (d : S) :
  InRange 1 calls ->
  (forall v x, succP 0 v [x] = (y ← succS 0 v x; mret [y])) ->
  (forall e x, errP 0 e [x] = (y ← errS 0 e x; mret [y])) ->
  invokeCallbacks succP errP calls [d] = (y ← invokeCallbacks succS errS calls d; mret [y]).
Proof.
  intros Hr Hs He; revert d; induction Hr as [|[i o] rest Hi _ IH]; intros d; [done|].
  simpl in Hi. assert (i = 0) as -> by lia.
  destruct o as [v|e]; simpl; [rewrite Hs; destruct (succS 0 v d) as [x|x]
                              |rewrite He; destruct (errS 0 e d) as [x|x]]; cbn; auto.
Qed.

(** In a one-element batch that is called back at least once, the
    initial content of the slot does not matter to callbacks that
    overwrite it. *)
Lemma invokeCallbacks_single_slot_overwritten
    (succP : nat -> A -> list S -> Result (list S))
    (errP : nat -> BatchElementError -> list S -> Result (list S))
    (calls : list (Invocation A)) (d d' : S) :
  InRange 1 calls -> calls <> [] ->
  (forall v x x', succP 0 v [x] = succP 0 v [x']) ->
  (forall e x x', errP 0 e [x] = errP 0 e [x']) ->
  invokeCallbacks succP errP calls [d] = invokeCallbacks succP errP calls [d'].
Proof.
  intros Hr Hne Hs He. destruct Hr as [|[i o] rest Hi _]; [done|].
  simpl in Hi. assert (i = 0) as -> by lia.
  destruct o as [v|e]; simpl; [by rewrite (Hs v d d')|by rewrite (He e d d')].
Qed.

(** Failures never reach a run of successes only. *)
Lemma allSucceed_no_failure (calls : list (Invocation A)) i e :
  AllSucceed calls -> ~ In (i, Failure e) calls.
Proof.
  intros Hall Hin. unfold AllSucceed in Hall. rewrite List.Forall_forall in Hall.
  apply Hall in Hin. discriminate.
Qed.
End ExtraDispatchFacts.

Section LastCallbackFacts.
Context {A Slot : Type} (h : Outcome A -> Slot).

Lemma fillSlots_lastOutcome (calls : list (Invocation A)) (r : list Slot) i :
  i < length r ->
  fillSlots h calls r !! i =
  match lastOutcome i calls with Some o => Some (h o) | None => r !! i end.
Proof.
  revert r; induction calls as [|[j o] rest IH]; intros r Hi; simpl; [done|].
  rewrite IH by (rewrite length_insert; done).
  destruct (lastOutcome i rest); [done|].
  rewrite list_lookup_insert. destruct (Nat.eqb_spec i j) as [->|Hne].
  - by rewrite decide_True.
  - rewrite decide_False by (intros [? _]; congruence). done.
Qed.

Lemma fillSlots_replicate_lastOutcome (calls : list (Invocation A)) n (d : Slot) :
  fillSlots h calls (replicate n d) = slotsByLastCallback h d n calls.
Proof.
  unfold slotsByLastCallback. apply list_eq; intros i. rewrite list_lookup_fmap.
  destruct (decide (i < n)).
  - rewrite fillSlots_lastOutcome by (rewrite length_replicate; done).
    rewrite lookup_seq_lt by done. simpl.
    rewrite lookup_replicate_2 by done. by destruct (lastOutcome i calls).
  - rewrite !lookup_ge_None_2; [done|rewrite length_seq; lia|].
    rewrite length_fillSlots, length_replicate. lia.
Qed.

(** Callbacks that store [h o] produce [slotsByLastCallback]. *)
Lemma invokeCallbacks_slots (succ : nat -> A -> list Slot -> Result (list Slot))
    (err : nat -> BatchElementError -> list Slot -> Result (list Slot))
    (calls : list (Invocation A)) n (d : Slot) :
  (forall i v r, succ i v r = inr (<[i := h (Success v)]> r)) ->
  (forall i e r, In (i, Failure e) calls -> err i e r = inr (<[i := h (Failure e)]> r)) ->
  invokeCallbacks succ err calls (replicate n d) = inr (slotsByLastCallback h d n calls).
Proof.
  intros Hs He. rewrite (invokeCallbacks_fill h succ err) by auto.
  by rewrite fillSlots_replicate_lastOutcome.
Qed.
End LastCallbackFacts.

Ltac solve_single_slot :=
  apply invokeCallbacks_single_slot; [assumption|intros; reflexivity|intros; reflexivity].

Ltac solve_slots Hall :=
  apply invokeCallbacks_slots;
  [intros; reflexivity
  |intros ? ? ? Hin; exfalso; exact (allSucceed_no_failure _ _ _ Hall Hin)].

(** Extra X1 (singular resolve is a one-element batch): when the plugin
    only calls back for index 0, the plural wrappers on [[r]] return the
    one-element list of what the singular wrappers return, under both
    policies, in Manager.cpp and in ManagerConveniences.cpp. *)
Theorem resolve_single_is_one_element_batch (m : Manager) (r : EntityReference)
    (ts : TraitSet) (acc : Access) (ctx : ContextConstPtr) :
  InRange 1 (mi_resolve (managerInterface_ m) [r] ts acc ctx (hostSession_ m)) ->
  Legacy.resolve_exc m [r] ts acc ctx = (y ← Legacy.resolve_single_exc m r ts acc ctx; mret [y]) /\
  Legacy.resolve_variant m [r] ts acc ctx =
    (y ← Legacy.resolve_single_variant m r ts acc ctx; mret [y]) /\
  Conveniences.resolve_exc m [r] ts acc ctx =
    (y ← Conveniences.resolve_single_exc m r ts acc ctx; mret [y]) /\
  Conveniences.resolve_variant m [r] ts acc ctx =
    (y ← Conveniences.resolve_single_variant m r ts acc ctx; mret [y]).
Proof.
  intros Hr. repeat split; unfold_wrapper;
    unfold Legacy.resolve_single_exc, Legacy.resolve_single_variant,
      Conveniences.resolve_single_exc, Conveniences.resolve_single_variant, resolve_cb;
    solve_single_slot.
Qed.

(** Extra X2 (singular preflight is a one-element batch): the same for
    preflight, whose singular forms pass the length check. *)
Theorem preflight_single_is_one_element_batch (m : Manager) (r : EntityReference)
    (hint : TraitsDataPtr) (acc : Access) (ctx : ContextConstPtr) :
  InRange 1 (mi_preflight (managerInterface_ m) [r] [hint] acc ctx (hostSession_ m)) ->
  Legacy.preflight_exc m [r] [hint] acc ctx =
    (y ← Legacy.preflight_single_exc m r hint acc ctx; mret [y]) /\
  Legacy.preflight_variant m [r] [hint] acc ctx =
    (y ← Legacy.preflight_single_variant m r hint acc ctx; mret [y]) /\
  Conveniences.preflight_exc m [r] [hint] acc ctx =
    (y ← Conveniences.preflight_single_exc m r hint acc ctx; mret [y]) /\
  Conveniences.preflight_variant m [r] [hint] acc ctx =
    (y ← Conveniences.preflight_single_variant m r hint acc ctx; mret [y]).
Proof.
  intros Hr. repeat split; unfold_wrapper;
    unfold Legacy.preflight_single_exc, Legacy.preflight_single_variant,
      Conveniences.preflight_single_exc, Conveniences.preflight_single_variant, preflight_cb;
    simpl; solve_single_slot.
Qed.

(** Extra X3 (singular register_ is a one-element batch): the same for
    register_. *)
Theorem register_single_is_one_element_batch (m : Manager) (r : EntityReference)
    (td : TraitsDataPtr) (acc : Access) (ctx : ContextConstPtr) :
  InRange 1 (mi_register_ (managerInterface_ m) [r] [td] acc ctx (hostSession_ m)) ->
  Legacy.register_exc m [r] [td] acc ctx =
    (y ← Legacy.register_single_exc m r td acc ctx; mret [y]) /\
  Legacy.register_variant m [r] [td] acc ctx =
    (y ← Legacy.register_single_variant m r td acc ctx; mret [y]) /\
  Conveniences.register_exc m [r] [td] acc ctx =
    (y ← Conveniences.register_single_exc m r td acc ctx; mret [y]) /\
  Conveniences.register_variant m [r] [td] acc ctx =
    (y ← Conveniences.register_single_variant m r td acc ctx; mret [y]).
Proof.
  intros Hr. repeat split; unfold_wrapper;
    unfold Legacy.register_single_exc, Legacy.register_single_variant,
      Conveniences.register_single_exc, Conveniences.register_single_variant, register_cb;
    simpl; solve_single_slot.
Qed.

(** Extra X4 (singular relationship queries are one-element batches):
    for any page size, the plural getWithRelationship wrappers on [[r]]
    and the plural getWithRelationships wrappers on [[rtd]] return the
    one-element list of what the singular wrappers return; for the
    Variant policy of getWithRelationship, whose plural slots start as a
    null pager and whose singular result starts as an error, this needs
    the plugin to call back at least once. *)
Theorem relationship_single_is_one_element_batch (m : Manager) (r : EntityReference)
    (rtd : TraitsDataPtr) (pageSize : nat) (acc : Access) (ctx : ContextConstPtr)
    (rts : TraitSet) :
  InRange 1 (mi_getWithRelationshipPaged (managerInterface_ m) [r] rtd rts pageSize acc ctx
               (hostSession_ m)) ->
  InRange 1 (mi_getWithRelationshipsPaged (managerInterface_ m) r [rtd] rts pageSize acc ctx
               (hostSession_ m)) ->
  Conveniences.getWithRelationship_exc m [r] rtd pageSize acc ctx rts =
    (y ← Conveniences.getWithRelationship_single_exc m r rtd pageSize acc ctx rts; mret [y]) /\
  (mi_getWithRelationshipPaged (managerInterface_ m) [r] rtd rts pageSize acc ctx
     (hostSession_ m) <> [] ->
   Conveniences.getWithRelationship_variant m [r] rtd pageSize acc ctx rts =
     (y ← Conveniences.getWithRelationship_single_variant m r rtd pageSize acc ctx rts;
      mret [y])) /\
  Conveniences.getWithRelationships_exc m r [rtd] pageSize acc ctx rts =
    (y ← Conveniences.getWithRelationships_single_exc m r rtd pageSize acc ctx rts;
     mret [y]) /\
  Conveniences.getWithRelationships_variant m r [rtd] pageSize acc ctx rts =
    (y ← Conveniences.getWithRelationships_single_variant m r rtd pageSize acc ctx rts;
     mret [y]).
Proof.
  intros H1 H2.
  unfold Conveniences.getWithRelationship_exc, Conveniences.getWithRelationship_variant,
    Conveniences.getWithRelationships_exc, Conveniences.getWithRelationships_variant,
    Conveniences.getWithRelationship_single_exc,
    Conveniences.getWithRelationship_single_variant,
    Conveniences.getWithRelationships_single_exc,
    Conveniences.getWithRelationships_single_variant,
    getWithRelationshipPaged, getWithRelationshipsPaged.
  destruct (Nat.eqb pageSize 0); [repeat split; intros; reflexivity|].
  split; [simpl; solve_single_slot|]. split; [|split; simpl; solve_single_slot].
  intros Hne. simpl.
  rewrite (invokeCallbacks_single_slot_overwritten _ _ _ _ (inl defaultBatchElementError) H1 Hne)
    by (intros; reflexivity).
  solve_single_slot.
Qed.

(** Extra X5 (no callback in a one-element relationship query): when the
    plugin calls back for none of the elements of a getWithRelationship
    query with a positive page size, the singular Variant-policy wrapper
    returns the value-initialised error while the plural one returns a
    null pager in its slot. *)
Theorem relationship_variant_without_callback (m : Manager) (r : EntityReference)
    (rtd : TraitsDataPtr) (pageSize : nat) (acc : Access) (ctx : ContextConstPtr)
    (rts : TraitSet) :
  0 < pageSize ->
  mi_getWithRelationshipPaged (managerInterface_ m) [r] rtd rts pageSize acc ctx
    (hostSession_ m) = [] ->
  Conveniences.getWithRelationship_single_variant m r rtd pageSize acc ctx rts =
    inr (inl defaultBatchElementError) /\
  Conveniences.getWithRelationship_variant m [r] rtd pageSize acc ctx rts = inr [inr None].
Proof.
  intros Hps Hnone.
  unfold Conveniences.getWithRelationship_single_variant,
    Conveniences.getWithRelationship_variant, getWithRelationshipPaged.
  destruct (Nat.eqb_spec pageSize 0) as [->|_]; [lia|].
  rewrite Hnone. split; reflexivity.
Qed.

(** Extra X6 (plural resolve, slot by slot): whatever the order and the
    multiplicity of the plugin's callbacks for indices below N, slot [i]
    of the plural Variant-policy result holds the outcome of the last
    callback for [i], or the default error if none came; with successes
    only, slot [i] of the Exception-policy result holds the last value
    delivered for [i], or [nullptr] if none came. *)
Theorem resolve_slots_by_last_callback (m : Manager) (refs : EntityReferences)
    (ts : TraitSet) (acc : Access) (ctx : ContextConstPtr) :
  InRange (length refs) (mi_resolve (managerInterface_ m) refs ts acc ctx (hostSession_ m)) ->
  Legacy.resolve_variant m refs ts acc ctx =
    inr (slotsByLastCallback variantSlot (inl defaultBatchElementError) (length refs)
           (mi_resolve (managerInterface_ m) refs ts acc ctx (hostSession_ m))) /\
  Conveniences.resolve_variant m refs ts acc ctx =
    inr (slotsByLastCallback variantSlot (inl defaultBatchElementError) (length refs)
           (mi_resolve (managerInterface_ m) refs ts acc ctx (hostSession_ m))) /\
  (AllSucceed (mi_resolve (managerInterface_ m) refs ts acc ctx (hostSession_ m)) ->
   Legacy.resolve_exc m refs ts acc ctx =
     inr (slotsByLastCallback (fun o => match o with Success v => v | Failure _ => nullptr end)
            nullptr (length refs)
            (mi_resolve (managerInterface_ m) refs ts acc ctx (hostSession_ m))) /\
   Conveniences.resolve_exc m refs ts acc ctx =
     inr (slotsByLastCallback (fun o => match o with Success v => v | Failure _ => nullptr end)
            nullptr (length refs)
            (mi_resolve (managerInterface_ m) refs ts acc ctx (hostSession_ m)))).
Proof.
  intros _. unfold_wrapper.
  split; [apply invokeCallbacks_slots; intros; reflexivity|].
  split; [apply invokeCallbacks_slots; intros; reflexivity|].
  intros Hall. split; solve_slots Hall.
Qed.

(** Extra X7 (plural preflight and register_, slot by slot): the same as
    X6 for preflight and register_ when the two input lists have the
    same length; the Exception-policy default is the empty entity
    reference. *)
Theorem publish_slots_by_last_callback (m : Manager) (refs : EntityReferences)
    (tds : TraitsDatas) (acc : Access) (ctx : ContextConstPtr) :
  length refs = length tds ->
  InRange (length refs) (mi_preflight (managerInterface_ m) refs tds acc ctx (hostSession_ m)) ->
  InRange (length refs) (mi_register_ (managerInterface_ m) refs tds acc ctx (hostSession_ m)) ->
  Legacy.preflight_variant m refs tds acc ctx =
    inr (slotsByLastCallback variantSlot (inl defaultBatchElementError) (length refs)
           (mi_preflight (managerInterface_ m) refs tds acc ctx (hostSession_ m))) /\
  Conveniences.preflight_variant m refs tds acc ctx =
    inr (slotsByLastCallback variantSlot (inl defaultBatchElementError) (length refs)
           (mi_preflight (managerInterface_ m) refs tds acc ctx (hostSession_ m))) /\
  Legacy.register_variant m refs tds acc ctx =
    inr (slotsByLastCallback variantSlot (inl defaultBatchElementError) (length refs)
           (mi_register_ (managerInterface_ m) refs tds acc ctx (hostSession_ m))) /\
  Conveniences.register_variant m refs tds acc ctx =
    inr (slotsByLastCallback variantSlot (inl defaultBatchElementError) (length refs)
           (mi_register_ (managerInterface_ m) refs tds acc ctx (hostSession_ m))) /\
  (AllSucceed (mi_preflight (managerInterface_ m) refs tds acc ctx (hostSession_ m)) ->
   Legacy.preflight_exc m refs tds acc ctx =
     inr (slotsByLastCallback
            (fun o => match o with Success v => v | Failure _ => mkEntityReference "" end)
            (mkEntityReference "") (length refs)
            (mi_preflight (managerInterface_ m) refs tds acc ctx (hostSession_ m))) /\
   Conveniences.preflight_exc m refs tds acc ctx =
     inr (slotsByLastCallback
            (fun o => match o with Success v => v | Failure _ => mkEntityReference "" end)
            (mkEntityReference "") (length refs)
            (mi_preflight (managerInterface_ m) refs tds acc ctx (hostSession_ m)))) /\
  (AllSucceed (mi_register_ (managerInterface_ m) refs tds acc ctx (hostSession_ m)) ->
   Legacy.register_exc m refs tds acc ctx =
     inr (slotsByLastCallback
            (fun o => match o with Success v => v | Failure _ => mkEntityReference "" end)
            (mkEntityReference "") (length refs)
            (mi_register_ (managerInterface_ m) refs tds acc ctx (hostSession_ m))) /\
   Conveniences.register_exc m refs tds acc ctx =
     inr (slotsByLastCallback
            (fun o => match o with Success v => v | Failure _ => mkEntityReference "" end)
            (mkEntityReference "") (length refs)
            (mi_register_ (managerInterface_ m) refs tds acc ctx (hostSession_ m)))).
Proof.
  intros Hlen _ _. unfold_wrapper.
  do 4 (split; [apply invokeCallbacks_slots; intros; reflexivity|]).
  split; intros Hall; split; solve_slots Hall.
Qed.

(** Extra X8 (relationship queries, Variant policy, slot by slot): with a
    positive page size and callbacks for indices below N, slot [i] holds
    the pager (wrapped with the manager's session) or the error of the
    last callback for [i]; a slot no callback reached holds a null pager
    for getWithRelationship and the default error for
    getWithRelationships. *)
Theorem relationship_variant_slots (m : Manager) (refs : EntityReferences)
    (rtd : TraitsDataPtr) (r : EntityReference) (rtds : TraitsDatas) (pageSize : nat)
    (acc : Access) (ctx : ContextConstPtr) (rts : TraitSet) :
  0 < pageSize ->
  InRange (length refs) (mi_getWithRelationshipPaged (managerInterface_ m) refs rtd rts
                           pageSize acc ctx (hostSession_ m)) ->
  InRange (length rtds) (mi_getWithRelationshipsPaged (managerInterface_ m) r rtds rts
                           pageSize acc ctx (hostSession_ m)) ->
  Conveniences.getWithRelationship_variant m refs rtd pageSize acc ctx rts =
    inr (slotsByLastCallback
           (fun o => match o with
                     | Success p => inr (Some (EntityReferencePager_make p (hostSession_ m)))
                     | Failure e => inl e
                     end)
           (inr None) (length refs)
           (mi_getWithRelationshipPaged (managerInterface_ m) refs rtd rts pageSize acc ctx
              (hostSession_ m))) /\
  Conveniences.getWithRelationships_variant m r rtds pageSize acc ctx rts =
    inr (slotsByLastCallback
           (fun o => match o with
                     | Success p => inr (Some (EntityReferencePager_make p (hostSession_ m)))
                     | Failure e => inl e
                     end)
           (inl defaultBatchElementError) (length rtds)
           (mi_getWithRelationshipsPaged (managerInterface_ m) r rtds rts pageSize acc ctx
              (hostSession_ m))).
Proof.
  intros Hps _ _.
  unfold Conveniences.getWithRelationship_variant, Conveniences.getWithRelationships_variant,
    getWithRelationshipPaged, getWithRelationshipsPaged.
  destruct (Nat.eqb_spec pageSize 0) as [->|_]; [lia|].
  split; apply invokeCallbacks_slots; intros; reflexivity.
Qed.

(** Extra X9 (relationship queries, Exception policy, slot by slot): with
    a positive page size and successes only for indices below N, slot [i]
    holds the pager of the last callback for [i], or a null pager if
    none came. *)
Theorem relationship_exc_slots (m : Manager) (refs : EntityReferences)
    (rtd : TraitsDataPtr) (r : EntityReference) (rtds : TraitsDatas) (pageSize : nat)
    (acc : Access) (ctx : ContextConstPtr) (rts : TraitSet) :
  0 < pageSize ->
  InRange (length refs) (mi_getWithRelationshipPaged (managerInterface_ m) refs rtd rts
                           pageSize acc ctx (hostSession_ m)) ->
  InRange (length rtds) (mi_getWithRelationshipsPaged (managerInterface_ m) r rtds rts
                           pageSize acc ctx (hostSession_ m)) ->
  (AllSucceed (mi_getWithRelationshipPaged (managerInterface_ m) refs rtd rts pageSize acc ctx
                 (hostSession_ m)) ->
   Conveniences.getWithRelationship_exc m refs rtd pageSize acc ctx rts =
     inr (slotsByLastCallback
            (fun o => match o with
                      | Success p => Some (EntityReferencePager_make p (hostSession_ m))
                      | Failure _ => None
                      end)
            None (length refs)
            (mi_getWithRelationshipPaged (managerInterface_ m) refs rtd rts pageSize acc ctx
               (hostSession_ m)))) /\
  (AllSucceed (mi_getWithRelationshipsPaged (managerInterface_ m) r rtds rts pageSize acc ctx
                 (hostSession_ m)) ->
   Conveniences.getWithRelationships_exc m r rtds pageSize acc ctx rts =
     inr (slotsByLastCallback
            (fun o => match o with
                      | Success p => Some (EntityReferencePager_make p (hostSession_ m))
                      | Failure _ => None
                      end)
            None (length rtds)
            (mi_getWithRelationshipsPaged (managerInterface_ m) r rtds rts pageSize acc ctx
               (hostSession_ m)))).
Proof.
  intros Hps _ _.
  unfold Conveniences.getWithRelationship_exc, Conveniences.getWithRelationships_exc,
    getWithRelationshipPaged, getWithRelationshipsPaged.
  destruct (Nat.eqb_spec pageSize 0) as [->|_]; [lia|].
  split; intros Hall; solve_slots Hall.
Qed.

(** Extra X10 (getWithRelationships, Exception policy, error message):
    with a positive page size, the first error callback, at any index,
    throws a [BatchElementException] whose message names the one entity
    reference the query is about. *)
Theorem relationships_exc_error_names_the_entity (m : Manager) (r : EntityReference)
    (rtds : TraitsDatas) (pageSize : nat) (acc : Access) (ctx : ContextConstPtr)
    (rts : TraitSet) (pre : list (Invocation EntityReferencePagerInterfacePtr)) (i : nat)
    (e : BatchElementError) (post : list (Invocation EntityReferencePagerInterfacePtr)) :
  0 < pageSize ->
  mi_getWithRelationshipsPaged (managerInterface_ m) r rtds rts pageSize acc ctx
    (hostSession_ m) = (pre ++ (i, Failure e) :: post)%list ->
  AllSucceed pre ->
  Conveniences.getWithRelationships_exc m r rtds pageSize acc ctx rts =
    Conveniences.throwWithMessage i e (Some r) acc.
Proof.
  intros Hps Hcalls Hpre.
  unfold Conveniences.getWithRelationships_exc, getWithRelationshipsPaged.
  destruct (Nat.eqb_spec pageSize 0) as [->|_]; [lia|].
  rewrite Hcalls. unfold Conveniences.throwWithMessage, throw.
  apply invokeCallbacks_first_failure; [intros; eexists; reflexivity|intros; reflexivity|exact Hpre].
Qed.

(** Extra X11 (getWithRelationship, Exception policy, error message):
    with a positive page size, the first error callback, for index [i],
    throws a [BatchElementException] whose message names the [i]-th
    entity reference. *)
Theorem relationship_exc_error_names_its_entity (m : Manager) (refs : EntityReferences)
    (rtd : TraitsDataPtr) (pageSize : nat) (acc : Access) (ctx : ContextConstPtr)
    (rts : TraitSet) (pre : list (Invocation EntityReferencePagerInterfacePtr)) (i : nat)
    (e : BatchElementError) (post : list (Invocation EntityReferencePagerInterfacePtr)) :
  0 < pageSize ->
  mi_getWithRelationshipPaged (managerInterface_ m) refs rtd rts pageSize acc ctx
    (hostSession_ m) = (pre ++ (i, Failure e) :: post)%list ->
  AllSucceed pre ->
  Conveniences.getWithRelationship_exc m refs rtd pageSize acc ctx rts =
    Conveniences.throwWithMessage i e (refs !! i) acc.
Proof.
  intros Hps Hcalls Hpre.
  unfold Conveniences.getWithRelationship_exc, getWithRelationshipPaged.
  destruct (Nat.eqb_spec pageSize 0) as [->|_]; [lia|].
  rewrite Hcalls. unfold Conveniences.throwWithMessage, throw.
  apply invokeCallbacks_first_failure; [intros; eexists; reflexivity|intros; reflexivity|exact Hpre].
Qed.

(** Extra X12 (initialize decides the entity reference test): after
    [initialize], whatever prefix was cached before, the test is the
    prefix test when the info dictionary maps the prefix key to a string,
    and the plugin's own answer otherwise; the plugin and the session are
    kept. *)
Theorem initialize_sets_reference_test (kInfoKey : string) (m : Manager)
    (info : InfoDictionary) (s : string) :
  managerInterface_ (fst (initialize kInfoKey m info)) = managerInterface_ m /\
  hostSession_ (fst (initialize kInfoKey m info)) = hostSession_ m /\
  isEntityReferenceString (fst (initialize kInfoKey m info)) s =
    match info !! kInfoKey with
    | Some (InfoStr prefix) => String.prefix prefix s
    | _ => mi_isEntityReferenceString (managerInterface_ m) s (hostSession_ m)
    end.
Proof.
  unfold initialize, entityReferencePrefixFromInfo, isEntityReferenceString.
  destruct (info !! kInfoKey) as [[]|]; repeat split.
Qed.

(** Extra X13 (a prefix of the wrong type): a non-string value under the
    prefix key gives the manager [initialize] gives when the key is
    absent, plus one warning. *)
Theorem initialize_invalid_prefix_type (kInfoKey : string) (m : Manager)
    (info : InfoDictionary) (v : InfoDictionaryValue) :
  info !! kInfoKey = Some v -> (forall p, v <> InfoStr p) ->
  initialize kInfoKey m info =
    (fst (initialize kInfoKey m (delete kInfoKey info)),
     [LogWarning "Entity reference prefix given but is an invalid type: should be a string."]).
Proof.
  intros Hv Hstr.
  unfold initialize, entityReferencePrefixFromInfo.
  rewrite Hv, (lookup_delete_eq (M := gmap string) info kInfoKey).
  destruct v as [| | |p]; [reflexivity..|]. exfalso. exact (Hstr p eq_refl).
Qed.

Section ContextFacts.
Context {TD PS : Type}.
Implicit Types (plugin : StatePlugin PS) (w : HostWorld TD PS).

Lemma lookup_alloc_old (l : list TD) (td : TD) j :
  l !! j <> None -> (l ++ [td])%list !! j = l !! j.
Proof.
  intros Hj. apply lookup_app_l. apply lookup_lt_is_Some_1.
  destruct (l !! j); [eauto|done].
Qed.

Lemma lookup_alloc_new (l : list TD) (td : TD) :
  (l ++ [td])%list !! length l = Some td /\ l !! length l = None.
Proof.
  split; [|by apply lookup_ge_None_2].
  rewrite lookup_app_r by lia. by rewrite Nat.sub_diag.
Qed.

(** Extra X14 (createContext): the new context has the state the
    plugin's [createState] returns (one call, with the manager's
    session), and a locale at an address not in use before, holding an
    empty traits data; no existing traits data changes. *)
Theorem createContext_fresh_locale (emptyTD : TD) plugin (m : Manager) w
    (c : Ctx.Context) (w' : HostWorld TD PS) :
  createContext emptyTD plugin m w = (c, w') ->
  Ctx.managerState c = fst (sp_createState plugin (hostSession_ m) (pluginState w)) /\
  stateCalls w' = (stateCalls w ++ [CallCreateState (hostSession_ m)])%list /\
  (exists a, Ctx.locale c = TraitsDataAt a /\ traitsDatas w !! a = None /\
             traitsDatas w' !! a = Some emptyTD) /\
  (forall j, traitsDatas w !! j <> None -> traitsDatas w' !! j = traitsDatas w !! j).
Proof.
  unfold createContext, callPlugin, allocTraitsData.
  destruct (sp_createState plugin (hostSession_ m) (pluginState w)) as [st ps'] eqn:E.
  simpl. intros H; inversion H; subst; clear H. simpl.
  do 2 (split; [reflexivity|]). split.
  - exists (length (traitsDatas w)). split; [done|].
    destruct (lookup_alloc_new (traitsDatas w) emptyTD). done.
  - intros j Hj. by apply lookup_alloc_old.
Qed.

(** The child context of a parent with a valid locale. *)
Lemma createChildContext_fresh_copy plugin (m : Manager) (parent : Ctx.Context) w
    (a : nat) (td : TD) :
  Ctx.locale parent = TraitsDataAt a -> traitsDatas w !! a = Some td ->
  exists c w', createChildContext plugin m parent w = Some (c, w') /\
    (exists b, Ctx.locale c = TraitsDataAt b /\ b <> a /\ traitsDatas w !! b = None /\
               traitsDatas w' !! b = Some td) /\
    (forall j, traitsDatas w !! j <> None -> traitsDatas w' !! j = traitsDatas w !! j).
Proof.
  intros Hloc Htd.
  assert (Hfresh := lookup_alloc_new (traitsDatas w) td).
  assert (Hb : length (traitsDatas w) <> a).
  { intros <-. destruct Hfresh as [_ Hn]. congruence. }
  unfold createChildContext, callPlugin, allocTraitsData. rewrite Hloc, Htd. simpl.
  destruct (Ctx.managerState parent) as [st|].
  - destruct (sp_createChildState plugin st (hostSession_ m) (pluginState w)) as [st' ps'].
    do 2 eexists. split; [reflexivity|]. simpl.
    split.
    + exists (length (traitsDatas w)). simpl. destruct Hfresh. done.
    + intros j Hj. by apply lookup_alloc_old.
  - do 2 eexists. split; [reflexivity|]. simpl.
    split.
    + exists (length (traitsDatas w)). simpl. destruct Hfresh. done.
    + intros j Hj. by apply lookup_alloc_old.
Qed.

(** Extra X15 (createChildContext, locale): for a parent whose locale is
    a traits data [td], the child context exists, with a locale at an
    address not in use before holding a copy of [td]; no existing traits
    data changes. *)
Theorem createChildContext_copies_locale plugin (m : Manager) (parent : Ctx.Context) w
    (a : nat) (td : TD) :
  Ctx.locale parent = TraitsDataAt a -> traitsDatas w !! a = Some td ->
  exists c w', createChildContext plugin m parent w = Some (c, w') /\
    (exists b, Ctx.locale c = TraitsDataAt b /\ b <> a /\ traitsDatas w !! b = None /\
               traitsDatas w' !! b = Some td) /\
    (forall j, traitsDatas w !! j <> None -> traitsDatas w' !! j = traitsDatas w !! j).
Proof.
  exact (createChildContext_fresh_copy plugin m parent w a td).
Qed.

(** Extra X16 (createChildContext, manager state): a parent without
    state gives a child without state and the plugin is not called; a
    parent with state [st] gives the child the state the plugin's
    [createChildState] returns for [st] (one call, with the manager's
    session). *)
Theorem createChildContext_state plugin (m : Manager) (parent : Ctx.Context) w
    (c : Ctx.Context) (w' : HostWorld TD PS) :
  createChildContext plugin m parent w = Some (c, w') ->
  (Ctx.managerState parent = None ->
   Ctx.managerState c = None /\ pluginState w' = pluginState w /\
   stateCalls w' = stateCalls w) /\
  (forall st, Ctx.managerState parent = Some st ->
   Ctx.managerState c = fst (sp_createChildState plugin st (hostSession_ m) (pluginState w)) /\
   stateCalls w' = (stateCalls w ++ [CallCreateChildState st (hostSession_ m)])%list).
Proof.
  unfold createChildContext, callPlugin, allocTraitsData.
  destruct (Ctx.locale parent) as [|a]; [discriminate|].
  destruct (traitsDatas w !! a) as [td|]; [|discriminate]. simpl.
  destruct (Ctx.managerState parent) as [st|] eqn:Hst.
  - destruct (sp_createChildState plugin st (hostSession_ m) (pluginState w)) as [st' ps'] eqn:E.
    intros H; inversion H; subst; clear H. simpl.
    split; [discriminate|]. intros st0 Hst0; inversion Hst0; subst. by rewrite E.
  - intros H; inversion H; subst; clear H. simpl.
    split; [done|]. discriminate.
Qed.

(** Extra X17 (locale isolation): after [createChildContext], a write
    through the child's locale leaves the parent's locale as it was, and
    a write through the parent's locale leaves the child's. *)
Theorem child_locale_isolated plugin (m : Manager) (parent : Ctx.Context) w (a : nat)
    (c : Ctx.Context) (w' : HostWorld TD PS) (f : TD -> TD) :
  Ctx.locale parent = TraitsDataAt a ->
  createChildContext plugin m parent w = Some (c, w') ->
  traitsDatas (updateTraitsData (Ctx.locale c) f w') !! a = traitsDatas w !! a /\
  (forall b, Ctx.locale c = TraitsDataAt b ->
   traitsDatas (updateTraitsData (Ctx.locale parent) f w') !! b = traitsDatas w' !! b).
Proof.
  intros Hloc Hc.
  destruct (traitsDatas w !! a) as [td|] eqn:Htd.
  2:{ unfold createChildContext in Hc. rewrite Hloc, Htd in Hc. discriminate. }
  destruct (createChildContext_fresh_copy plugin m parent w a td Hloc Htd)
    as (c0 & w0 & Hc0 & (b & Hb & Hba & _ & _) & Hold).
  rewrite Hc in Hc0. inversion Hc0; subst; clear Hc0.
  split.
  - rewrite Hb. simpl. rewrite list_lookup_alter_ne by done.
    rewrite Hold by (rewrite Htd; done). done.
  - intros b' Hb'. rewrite Hb in Hb'. inversion Hb'; subst.
    rewrite Hloc. simpl. apply list_lookup_alter_ne. done.
Qed.

(** Extra X18 (stateless contexts and persistence): a context without
    state has the empty persistence token, and the empty token gives back
    a default context; neither calls the plugin or changes anything. *)
Theorem stateless_context_round_trip plugin (m : Manager) (c : Ctx.Context) w :
  Ctx.managerState c = None ->
  persistenceTokenForContext plugin m c w = ("", w) /\
  contextFromPersistenceToken plugin m "" w = (Ctx.make_default, w).
Proof.
  intros Hst. unfold persistenceTokenForContext, contextFromPersistenceToken.
  rewrite Hst. split; reflexivity.
Qed.

(** Extra X19 (persistence round trip): a context with state [st] gives
    the plugin's token for [st]; restoring a context from that token
    yields no locale and the state the plugin restores from the token, or no state and no further plugin
    call when the token is empty; the traits datas are untouched. *)
Theorem persistence_round_trip plugin (m : Manager) (c : Ctx.Context) w (st : nat)
    (token : string) (w1 : HostWorld TD PS) (c' : Ctx.Context) (w2 : HostWorld TD PS) :
  Ctx.managerState c = Some st ->
  persistenceTokenForContext plugin m c w = (token, w1) ->
  contextFromPersistenceToken plugin m token w1 = (c', w2) ->
  token = fst (sp_persistenceTokenForState plugin st (hostSession_ m) (pluginState w)) /\
  Ctx.locale c' = nullptr /\
  Ctx.managerState c' =
    (if String.eqb token "" then None
     else fst (sp_stateFromPersistenceToken plugin token (hostSession_ m) (pluginState w1))) /\
  stateCalls w2 =
    (stateCalls w ++ [CallPersistenceTokenForState st (hostSession_ m)] ++
     (if String.eqb token "" then []
      else [CallStateFromPersistenceToken token (hostSession_ m)]))%list /\
  traitsDatas w2 = traitsDatas w.
Proof.
  intros Hst Htok Hctx.
  unfold persistenceTokenForContext, callPlugin in Htok. rewrite Hst in Htok.
  destruct (sp_persistenceTokenForState plugin st (hostSession_ m) (pluginState w))
    as [t ps1] eqn:E1.
  inversion Htok; subst; clear Htok. simpl in *.
  unfold contextFromPersistenceToken, callPlugin in Hctx. simpl in Hctx.
  destruct (String.eqb token "") eqn:Heq; simpl in Hctx.
  - inversion Hctx; subst; clear Hctx. simpl.
    repeat split.
  - destruct (sp_stateFromPersistenceToken plugin token (hostSession_ m) ps1) as [st' ps2]
      eqn:E2.
    inversion Hctx; subst; clear Hctx. simpl.
    rewrite <- app_assoc. repeat split.
Qed.
End ContextFacts.

(** ** Witnesses of the further properties *)

Ltac in_range := unfold InRange; decide_concrete.

Lemma resolve_single_is_one_element_batch_witness :
  let e := {| code := kEntityAccessError; message := "denied" |} in
  let m := mockManager [(0, Success (TraitsDataAt 4)); (0, Failure e)] [] [] in
  let r := mkEntityReference "bal:///a" in
  Conveniences.resolve_exc m [r] ["t"] kRead 0 =
    (y ← Conveniences.resolve_single_exc m r ["t"] kRead 0; mret [y]) /\
  Legacy.resolve_variant m [r] ["t"] kRead 0 = inr [inl e].
Proof.
  intros e m r.
  destruct (resolve_single_is_one_element_batch m r ["t"] kRead 0 ltac:(in_range))
    as (_ & Hv & He & _).
  split; [exact He|]. rewrite Hv. vm_compute. reflexivity.
Defined.

Lemma preflight_single_is_one_element_batch_witness :
  let m := mockManager [] [(0, Success (mkEntityReference "bal:///a#2"))] [] in
  let r := mkEntityReference "bal:///a" in
  Legacy.preflight_exc m [r] [TraitsDataAt 1] kWrite 0 =
    (y ← Legacy.preflight_single_exc m r (TraitsDataAt 1) kWrite 0; mret [y]) /\
  Conveniences.preflight_variant m [r] [TraitsDataAt 1] kWrite 0 =
    inr [inr (mkEntityReference "bal:///a#2")].
Proof.
  intros m r.
  destruct (preflight_single_is_one_element_batch m r (TraitsDataAt 1) kWrite 0
              ltac:(in_range)) as (He & _ & _ & Hv).
  split; [exact He|]. rewrite Hv. vm_compute. reflexivity.
Defined.

Lemma register_single_is_one_element_batch_witness :
  let e := {| code := kInvalidTraitsData; message := "bad" |} in
  let m := mockManager [] [(0, Failure e)] [] in
  let r := mkEntityReference "bal:///a" in
  Legacy.register_exc m [r] [TraitsDataAt 1] kWrite 0 =
    (y ← Legacy.register_single_exc m r (TraitsDataAt 1) kWrite 0; mret [y]) /\
  Conveniences.register_variant m [r] [TraitsDataAt 1] kWrite 0 = inr [inl e].
Proof.
  intros e m r.
  destruct (register_single_is_one_element_batch m r (TraitsDataAt 1) kWrite 0
              ltac:(in_range)) as (He & _ & _ & Hv).
  split; [exact He|]. rewrite Hv. vm_compute. reflexivity.
Defined.

Lemma relationship_single_is_one_element_batch_witness :
  let m := mockManager [] [] [(0, Success 30)] in
  let r := mkEntityReference "bal:///a" in
  Conveniences.getWithRelationship_variant m [r] (TraitsDataAt 1) 5 kRead 0 [] =
    (y ← Conveniences.getWithRelationship_single_variant m r (TraitsDataAt 1) 5 kRead 0 [];
     mret [y]) /\
  Conveniences.getWithRelationships_exc m r [TraitsDataAt 1] 5 kRead 0 [] =
    inr [Some (EntityReferencePager_make 30 7)].
Proof.
  intros m r.
  destruct (relationship_single_is_one_element_batch m r (TraitsDataAt 1) 5 kRead 0 []
              ltac:(in_range) ltac:(in_range)) as (_ & Hv & He & _).
  split; [apply Hv; discriminate|]. rewrite He. vm_compute. reflexivity.
Defined.

Lemma relationship_variant_without_callback_witness :
  let m := mockManager [] [] [] in
  let r := mkEntityReference "bal:///a" in
  Conveniences.getWithRelationship_single_variant m r (TraitsDataAt 1) 5 kRead 0 [] =
    inr (inl defaultBatchElementError) /\
  Conveniences.getWithRelationship_variant m [r] (TraitsDataAt 1) 5 kRead 0 [] = inr [inr None].
Proof.
  intros m r.
  apply (relationship_variant_without_callback m r (TraitsDataAt 1) 5 kRead 0 []);
    [lia|reflexivity].
Defined.

Lemma resolve_slots_by_last_callback_witness :
  let refs := [mkEntityReference "bal:///a"; mkEntityReference "bal:///b";
               mkEntityReference "bal:///c"] in
  let m := mockManager [(2, Success (TraitsDataAt 1)); (0, Success (TraitsDataAt 2));
                        (2, Success (TraitsDataAt 3))] [] [] in
  Legacy.resolve_variant m refs [] kRead 0 =
    inr [inr (TraitsDataAt 2); inl defaultBatchElementError; inr (TraitsDataAt 3)] /\
  Conveniences.resolve_exc m refs [] kRead 0 = inr [TraitsDataAt 2; nullptr; TraitsDataAt 3].
Proof.
  intros refs m.
  destruct (resolve_slots_by_last_callback m refs [] kRead 0 ltac:(in_range))
    as (Hv & _ & Hexc).
  destruct (Hexc ltac:(unfold AllSucceed; decide_concrete)) as [_ He].
  rewrite Hv, He. vm_compute. split; reflexivity.
Defined.

Lemma publish_slots_by_last_callback_witness :
  let e := {| code := kEntityAccessError; message := "read only" |} in
  let refs := [mkEntityReference "bal:///a"; mkEntityReference "bal:///b"] in
  let m := mockManager [] [(1, Success (mkEntityReference "bal:///b#1")); (1, Failure e)] [] in
  Legacy.register_variant m refs [TraitsDataAt 1; TraitsDataAt 2] kWrite 0 =
    inr [inl defaultBatchElementError; inl e].
Proof.
  intros e refs m.
  destruct (publish_slots_by_last_callback m refs [TraitsDataAt 1; TraitsDataAt 2] kWrite 0
              eq_refl ltac:(in_range) ltac:(in_range)) as (_ & _ & Hr & _).
  rewrite Hr. vm_compute. reflexivity.
Defined.

Lemma relationship_variant_slots_witness :
  let e := {| code := kEntityResolutionError; message := "none" |} in
  let refs := [mkEntityReference "bal:///a"; mkEntityReference "bal:///b";
               mkEntityReference "bal:///c"] in
  let rtds := [TraitsDataAt 1; TraitsDataAt 2; TraitsDataAt 3] in
  let m := mockManager [] [] [(1, Success 30); (0, Failure e)] in
  Conveniences.getWithRelationship_variant m refs (TraitsDataAt 1) 5 kRead 0 [] =
    inr [inl e; inr (Some (EntityReferencePager_make 30 7)); inr None] /\
  Conveniences.getWithRelationships_variant m (mkEntityReference "bal:///a") rtds 5 kRead 0 [] =
    inr [inl e; inr (Some (EntityReferencePager_make 30 7)); inl defaultBatchElementError].
Proof.
  intros e refs rtds m.
  destruct (relationship_variant_slots m refs (TraitsDataAt 1) (mkEntityReference "bal:///a")
              rtds 5 kRead 0 [] ltac:(lia) ltac:(in_range) ltac:(in_range)) as [H1 H2].
  rewrite H1, H2. vm_compute. split; reflexivity.
Defined.

Lemma relationship_exc_slots_witness :
  let refs := [mkEntityReference "bal:///a"; mkEntityReference "bal:///b"] in
  let m := mockManager [] [] [(1, Success 30)] in
  Conveniences.getWithRelationship_exc m refs (TraitsDataAt 1) 5 kRead 0 [] =
    inr [None; Some (EntityReferencePager_make 30 7)].
Proof.
  intros refs m.
  destruct (relationship_exc_slots m refs (TraitsDataAt 1) (mkEntityReference "bal:///a")
              [TraitsDataAt 1; TraitsDataAt 2] 5 kRead 0 []
              ltac:(lia) ltac:(in_range) ltac:(in_range)) as [H1 _].
  rewrite (H1 ltac:(unfold AllSucceed; decide_concrete)). vm_compute. reflexivity.
Defined.

Lemma relationships_exc_error_names_the_entity_witness :
  let e := {| code := kEntityAccessError; message := "denied" |} in
  let r := mkEntityReference "bal:///a" in
  let m := mockManager [] [] [(1, Success 30); (0, Failure e); (1, Success 40)] in
  Conveniences.getWithRelationships_exc m r [TraitsDataAt 1; TraitsDataAt 2] 5 kRead 0 [] =
    Conveniences.throwWithMessage 0 e (Some r) kRead.
Proof.
  intros e r m.
  apply (relationships_exc_error_names_the_entity m r [TraitsDataAt 1; TraitsDataAt 2] 5 kRead
           0 [] [(1, Success 30)] 0 e [(1, Success 40)]);
    [lia|reflexivity|unfold AllSucceed; decide_concrete].
Defined.

Lemma relationship_exc_error_names_its_entity_witness :
  let e := {| code := kEntityAccessError; message := "denied" |} in
  let refs := [mkEntityReference "bal:///a"; mkEntityReference "bal:///b"] in
  let m := mockManager [] [] [(0, Success 30); (1, Failure e)] in
  Conveniences.getWithRelationship_exc m refs (TraitsDataAt 1) 5 kRead 0 [] =
    Conveniences.throwWithMessage 1 e (Some (mkEntityReference "bal:///b")) kRead.
Proof.
  intros e refs m.
  apply (relationship_exc_error_names_its_entity m refs (TraitsDataAt 1) 5 kRead 0 []
           [(0, Success 30)] 1 e []);
    [lia|reflexivity|unfold AllSucceed; decide_concrete].
Defined.

Lemma initialize_invalid_prefix_type_witness :
  let k := "entityReferencesMatchPrefix" in
  let info : InfoDictionary := <[k := InfoBool true]> (<["x" := InfoStr "y"]> ∅) in
  let m := mockManager [] [] [] in
  initialize k m info =
    (fst (initialize k m (delete k info)),
     [LogWarning "Entity reference prefix given but is an invalid type: should be a string."]).
Proof.
  intros k info m.
  apply (initialize_invalid_prefix_type k m info (InfoBool true));
    [vm_compute; reflexivity|intros p; discriminate].
Defined.

Lemma createContext_fresh_locale_witness :
  let m := mockManager [] [] [] in
  let w := mkHostWorld [10; 11] 5 [] in
  exists a, TraitsDataAt 2 = TraitsDataAt a /\ traitsDatas w !! a = None /\
            [10; 11; 0] !! a = Some 0.
Proof.
  intros m w.
  destruct (createContext_fresh_locale 0 mockStatePlugin m w
              (Ctx.mkContext (TraitsDataAt 2) (Some 5))
              (mkHostWorld [10; 11; 0] 6 [CallCreateState 7]) ltac:(vm_compute; reflexivity))
    as (_ & _ & Hfresh & _).
  exact Hfresh.
Defined.

Lemma createChildContext_copies_locale_witness :
  let m := mockManager [] [] [] in
  let parent := Ctx.mkContext (TraitsDataAt 1) (Some 3) in
  let w := mkHostWorld [10; 11] 0 [] in
  exists c w', createChildContext mockStatePlugin m parent w = Some (c, w') /\
    exists b, Ctx.locale c = TraitsDataAt b /\ b <> 1.
Proof.
  intros m parent w.
  destruct (createChildContext_copies_locale mockStatePlugin m parent w 1 11
              ltac:(reflexivity) ltac:(reflexivity)) as (c & w' & H & (b & Hb & Hb1 & _) & _).
  exists c, w'. split; [exact H|exists b; split; assumption].
Defined.

Lemma createChildContext_state_witness :
  let m := mockManager [] [] [] in
  let parent := Ctx.mkContext (TraitsDataAt 1) (Some 3) in
  let w := mkHostWorld [10; 11] 0 [] in
  let c := Ctx.mkContext (TraitsDataAt 2) (Some 103) in
  let w' := mkHostWorld [10; 11; 11] 1 [CallCreateChildState 3 7] in
  Ctx.managerState c = fst (sp_createChildState mockStatePlugin 3 (hostSession_ m) 0) /\
  stateCalls w' = (stateCalls w ++ [CallCreateChildState 3 (hostSession_ m)])%list.
Proof.
  intros m parent w c w'.
  destruct (createChildContext_state mockStatePlugin m parent w c w'
              ltac:(vm_compute; reflexivity)) as [_ Hst].
  exact (Hst 3 eq_refl).
Defined.

Lemma child_locale_isolated_witness :
  let m := mockManager [] [] [] in
  let parent := Ctx.mkContext (TraitsDataAt 1) None in
  let w := mkHostWorld [10; 11] 0 [] in
  let c := Ctx.mkContext (TraitsDataAt 2) None in
  let w' := mkHostWorld [10; 11; 11] 0 [] in
  traitsDatas (updateTraitsData (Ctx.locale c) S w') !! 1 = Some 11.
Proof.
  intros m parent w c w'.
  rewrite (proj1 (child_locale_isolated mockStatePlugin m parent w 1 c w' S
                    ltac:(reflexivity) ltac:(vm_compute; reflexivity))).
  reflexivity.
Defined.

Lemma stateless_context_round_trip_witness :
  let m := mockManager [] [] [] in
  let w : HostWorld nat nat := mkHostWorld [10] 4 [] in
  persistenceTokenForContext mockStatePlugin m Ctx.make_default w = ("", w) /\
  contextFromPersistenceToken mockStatePlugin m "" w = (Ctx.make_default, w).
Proof.
  intros m w.
  apply (stateless_context_round_trip mockStatePlugin m Ctx.make_default w). reflexivity.
Defined.

Lemma persistence_round_trip_witness :
  let m := mockManager [] [] [] in
  let c := Ctx.mkContext (TraitsDataAt 0) (Some 3) in
  let w := mkHostWorld [10] 4 [] in
  let w1 := mkHostWorld [10] 4 [CallPersistenceTokenForState 3 7] in
  let c' := Ctx.mkContext nullptr (Some 3) in
  let w2 := mkHostWorld [10] 5 [CallPersistenceTokenForState 3 7;
                                 CallStateFromPersistenceToken "tok" 7] in
  Ctx.managerState c' = Some 3.
Proof.
  intros m c w w1 c' w2.
  destruct (persistence_round_trip mockStatePlugin m c w 3 "tok" w1 c' w2 eq_refl
              ltac:(vm_compute; reflexivity) ltac:(vm_compute; reflexivity))
    as (_ & _ & Hst & _).
  rewrite Hst. vm_compute. reflexivity.
Defined.
